(** * Resume-Ranker: a shallow embedding of [app.py]

    The program is one Streamlit script with three functions:
    [extract_text_from_pdf], [score_resume] and [main].  Everything the
    script obtains from the outside (the uploaded streams, PyMuPDF, the
    process environment, the chat model, Python's [float] constructor) is
    an input of the model.  What a run does is recorded in an event trace:
    the warnings and errors it shows, the files it reads, the calls it
    makes to the model, the progress updates and the lines of the ranking.
    The static parts of the page (title, introduction, upload widgets,
    spinners, subheader) are shown on every run and are not recorded.

    Conventions.
    - A Python [str] is a [string] whose characters are code points below
      256; a [bytes] value is a [list byte].
    - A Python exception is represented by its message [str(e)].  Only
      subclasses of [Exception] are modelled, which is what the script's
      [except Exception] clauses catch.
    - A Python number is an [int] (arbitrary precision, [Z]) or a [float]
      (IEEE binary64, Rocq's primitive [float]).
    - The constructor [AzureChatOpenAI(...)] is taken to return; the reply
      of the model is its [content] string, and anything else a call can
      do is an exception. *)

From Stdlib Require Import ZArith List String Ascii Bool Lia.
From Stdlib Require Import Permutation Sorted Floats.
Import ListNotations.

Local Open Scope string_scope.
Local Open Scope list_scope.

(** ** Results of calls that may raise *)

Inductive outcome (A : Type) : Type :=
| Returns (a : A)
| Raises (e : string).

Arguments Returns {A} a.
Arguments Raises {A} e.

(** ** Python numbers *)

Inductive pynum : Type :=
| PyInt (z : Z)
| PyFloat (x : float).

(** [float(i)] for an [int]: round to nearest even. Exact for the three
    integer literals of the script (0, 100 and -1). *)
Definition float_of_int (z : Z) : float :=
  SF2Prim (binary_normalize prec emax z 0 false).

Definition as_float (a : pynum) : float :=
  match a with
  | PyInt z => float_of_int z
  | PyFloat x => x
  end.

(** Rich comparisons.  Two ints compare as integers; as soon as a float
    takes part, CPython converts a small int to a double and compares
    doubles.  The conversion is exact for ints of magnitude up to 2^53,
    which covers every int the script compares (0, 100 and -1); beyond
    that CPython compares exactly and these definitions do not, so every
    statement below that compares an int with a float is about the scores
    of [possible_score]. *)
Definition py_lt (a b : pynum) : bool :=
  match a, b with
  | PyInt i, PyInt j => Z.ltb i j
  | _, _ => PrimFloat.ltb (as_float a) (as_float b)
  end.

Definition py_le (a b : pynum) : bool :=
  match a, b with
  | PyInt i, PyInt j => Z.leb i j
  | _, _ => PrimFloat.leb (as_float a) (as_float b)
  end.

Definition py_eq (a b : pynum) : bool :=
  match a, b with
  | PyInt i, PyInt j => Z.eqb i j
  | _, _ => PrimFloat.eqb (as_float a) (as_float b)
  end.

(** [min(a, b)] and [max(a, b)] on two positional arguments: the first
    argument is kept unless the second is strictly smaller (for [min],
    [b < a]) or strictly greater (for [max], [b > a]). *)
Definition py_min (a b : pynum) : pynum := if py_lt b a then b else a.
Definition py_max (a b : pynum) : pynum := if py_lt a b then b else a.

(** ** Python strings *)

Definition nl : string := String (ascii_of_nat 10) "".

(** [str.isspace] on a single character below 256. *)
Definition isspace (c : ascii) : bool :=
  let n := nat_of_ascii c in
  (Nat.leb 9 n && Nat.leb n 13) || (Nat.leb 28 n && Nat.leb n 32)
  || Nat.eqb n 133 || Nat.eqb n 160.

Fixpoint lstrip_chars (l : list ascii) : list ascii :=
  match l with
  | [] => []
  | c :: l' => if isspace c then lstrip_chars l' else l
  end.

(** [s.strip()] with no argument. *)
Definition strip (s : string) : string :=
  string_of_list_ascii
    (rev (lstrip_chars (rev (lstrip_chars (list_ascii_of_string s))))).

(** ** Events visible to the user or sent to a service *)

Inductive message : Type :=
| SystemMessage (content : string)
| HumanMessage (content : string).

Inductive event : Type :=
| st_warning (text : string)
| st_error (text : string)
| pdf_read (name : string)
| llm_call (messages : list message)
| st_progress (done total : nat)
| ranked_line (rank : nat) (name : string) (score_display : option pynum).

(** ** Uploaded files *)

Record uploaded_file : Type := {
  name : string;
  read : outcome (list Byte.byte)
}.

Record fitz_page : Type := { get_text : outcome string }.

(** ** The [resumes_texts] dictionary

    A Python [dict] keeps its keys in insertion order; assigning to a key
    that is already present replaces the value and leaves the key where it
    is. *)

Definition dict : Type := list (string * string).

Fixpoint dict_set (d : dict) (k v : string) : dict :=
  match d with
  | [] => [(k, v)]
  | (k', v') :: d' =>
      if String.eqb k' k then (k', v) :: d' else (k', v') :: dict_set d' k v
  end.

Definition dict_keys (d : dict) : list string := map fst d.

Fixpoint dict_get (d : dict) (k : string) : option string :=
  match d with
  | [] => None
  | (k', v') :: d' => if String.eqb k' k then Some v' else dict_get d' k
  end.

(** ** Score records, the dictionaries [{"name": ..., "score": ...}] *)

Record score_entry : Type := {
  entry_name : string;
  entry_score : pynum
}.

(** ** [sorted(scores, key=..., reverse=True)]

    CPython sorts with [<] on the keys only, and keeps equal keys in their
    original order; with [reverse=True] it reverses the list, sorts it
    ascending, and reverses it again, which keeps that guarantee.  The
    ascending sort is written as the insertion of each element, left to
    right, after every element it is not smaller than. *)

Section Sorting.
Context {A : Type} (lt : A -> A -> bool).

Fixpoint insert_right (x : A) (l : list A) : list A :=
  match l with
  | [] => [x]
  | y :: l' => if lt x y then x :: l else y :: insert_right x l'
  end.

Definition sort_ascending (l : list A) : list A :=
  fold_left (fun acc x => insert_right x acc) l [].

Definition sorted_reverse (l : list A) : list A :=
  rev (sort_ascending (rev l)).

(** No element is followed by a strictly smaller one; by a strictly
    greater one. *)
Definition ascending : list A -> Prop :=
  StronglySorted (fun a b => lt b a = false).

Definition descending : list A -> Prop :=
  StronglySorted (fun a b => lt a b = false).

(** Same key as [v]: neither is smaller. *)
Definition same_key (v a : A) : bool := negb (lt v a) && negb (lt a v).
End Sorting.

Definition score_lt (a b : score_entry) : bool :=
  py_lt (entry_score a) (entry_score b).

Definition sorted_by_score_desc (scores : list score_entry) : list score_entry :=
  sorted_reverse score_lt scores.

(** ** Sequencing of calls that may raise *)

Definition bind {A B : Type} (c : outcome A) (k : A -> outcome B) : outcome B :=
  match c with
  | Returns a => k a
  | Raises e => Raises e
  end.

Notation "x <- c ;; k" := (bind c (fun x => k))
  (at level 61, c at next level, right associativity).

(** ** Sample instances of the outside world

    The program section below is parametric in the services the script
    calls.  The instances here are small stand-ins used to run the model on
    concrete inputs. *)

Definition digit_of (c : ascii) : option Z :=
  let n := nat_of_ascii c in
  if Nat.leb 48 n && Nat.leb n 57 then Some (Z.of_nat (n - 48)) else None.

Fixpoint read_digits (l : list ascii) (acc : Z) (count : nat)
  : Z * nat * list ascii :=
  match l with
  | [] => (acc, count, [])
  | c :: l' =>
      match digit_of c with
      | Some d => read_digits l' (10 * acc + d)%Z (S count)
      | None => (acc, count, l)
      end
  end.

Definition value_error (s : string) : string :=
  "could not convert string to float: '" ++ s ++ "'".

(** A reader of plain decimal literals ([-20], [150], [73.5]): an optional
    sign, digits, an optional point and digits.  The quotient of two
    doubles is the correctly rounded value as long as the digits read as an
    integer below 2^53 and at most 22 of them follow the point; the reader
    refuses everything else. *)
Definition sample_float (s : string) : outcome float :=
  let l := list_ascii_of_string s in
  let '(negative, l1) :=
    match l with
    | "-"%char :: r => (true, r)
    | "+"%char :: r => (false, r)
    | _ => (false, l)
    end in
  let '(whole, n1, l2) := read_digits l1 0%Z 0 in
  let '(mantissa, n2, l3) :=
    match l2 with
    | "."%char :: r => read_digits r whole 0
    | _ => (whole, 0, l2)
    end in
  match l3 with
  | [] =>
      if Nat.ltb 0 (n1 + n2) && Z.ltb mantissa (2 ^ 53) && Nat.leb n2 22 then
        let q := PrimFloat.div (float_of_int mantissa)
                               (float_of_int (10 ^ Z.of_nat n2)) in
        Returns (if negative then PrimFloat.opp q else q)
      else Raises (value_error s)
  | _ :: _ => Raises (value_error s)
  end.

(** A PDF reader that accepts any stream starting with the byte [%] and
    reports one page per remaining byte. *)
Definition sample_fitz_open (data : list Byte.byte) : outcome (list fitz_page) :=
  match data with
  | Byte.x25 :: rest =>
      Returns (map (fun b =>
                 {| get_text := Returns (String (ascii_of_byte b) "") |}) rest)
  | _ => Raises "Failed to open stream"
  end.

(** A decoder for the 7-bit subset of UTF-8. *)
Fixpoint sample_decode (data : list Byte.byte) : outcome string :=
  match data with
  | [] => Returns ""
  | b :: rest =>
      if Nat.ltb (nat_of_ascii (ascii_of_byte b)) 128 then
        s <- sample_decode rest ;; Returns (String (ascii_of_byte b) s)
      else Raises "'utf-8' codec can't decode byte"
  end.

Definition bytes_of (s : string) : list Byte.byte := list_byte_of_string s.

Definition sample_getenv (k : string) : option string :=
  if String.eqb k "AZURE_OPENAI_API_KEY" then Some "secret"
  else if String.eqb k "AZURE_OPENAI_ENDPOINT" then Some "https://example.invalid"
  else if String.eqb k "AZURE_OPENAI_DEPLOYMENT_NAME" then Some "gpt"
  else None.

(** The same environment without the API key. *)
Definition sample_getenv_no_key (k : string) : option string :=
  if String.eqb k "AZURE_OPENAI_API_KEY" then None else sample_getenv k.

(** The keyword arguments of the [AzureChatOpenAI] constructor. *)
Record llm_settings : Type := {
  azure_deployment : option string;
  azure_endpoint : option string;
  openai_api_key : option string;
  openai_api_version : string;
  temperature : Z;
  max_tokens : Z
}.

(** A chat model that answers its first three calls with a number, a
    sentence and an error, and every later call with an out-of-range
    number. *)
Definition sample_llm (_ : llm_settings) (call : nat) (_ : list message)
  : outcome string :=
  match call with
  | 0 => Returns " 73.5 "
  | 1 => Returns "Great fit!"
  | 2 => Raises "Connection error."
  | _ => Returns "150"
  end.

(** The same environment with the API key set to the empty string. *)
Definition sample_getenv_empty_key (k : string) : option string :=
  if String.eqb k "AZURE_OPENAI_API_KEY" then Some "" else sample_getenv k.

(** Sample uploads.  The job description is the one of the end-to-end
    example; [cv_blank] is a PDF without pages, [cv_broken] is not a PDF,
    and [cv_a_again] carries the file name of [cv_a]. *)
Definition sample_jd : uploaded_file :=
  {| name := "jd.txt";
     read := Returns (bytes_of "Looking for a Python backend engineer") |}.

Definition cv_a : uploaded_file :=
  {| name := "a.pdf"; read := Returns (bytes_of "%Python") |}.

Definition cv_a_again : uploaded_file :=
  {| name := "a.pdf"; read := Returns (bytes_of "%Rust") |}.

Definition cv_blank : uploaded_file :=
  {| name := "blank.pdf"; read := Returns (bytes_of "%") |}.

Definition cv_broken : uploaded_file :=
  {| name := "broken.pdf"; read := Returns (bytes_of "not a pdf") |}.

(** Two more uploads under the file name of [cv_a]: a PDF without pages
    and a stream that is not a PDF. *)
Definition cv_a_blank : uploaded_file :=
  {| name := "a.pdf"; read := Returns (bytes_of "%") |}.

Definition cv_a_broken : uploaded_file :=
  {| name := "a.pdf"; read := Returns (bytes_of "not a pdf") |}.

Definition jd_unreadable : uploaded_file :=
  {| name := "jd.txt"; read := Raises "I/O operation on closed file." |}.

(** The collected results of the ranking example. *)
Definition abcd : list score_entry :=
  [ {| entry_name := "A"; entry_score := PyFloat 80 |};
    {| entry_name := "B"; entry_score := PyInt (-1) |};
    {| entry_name := "C"; entry_score := PyFloat 95 |};
    {| entry_name := "D"; entry_score := PyFloat 80 |} ].

(** * The program *)

Section Program.

(** Python's [float(str)]: the parsed double, or the message of the
    [ValueError]. *)
Variable py_float : string -> outcome float.

(** [fitz.open(stream=..., filetype="pdf")]: the pages of the document, or
    the message of the exception PyMuPDF raises. *)
Variable fitz_open : list Byte.byte -> outcome (list fitz_page).

(** [bytes.decode("utf-8")]. *)
Variable decode_utf8 : list Byte.byte -> outcome string.

(** [os.getenv]. *)
Variable getenv : string -> option string.

(** The remote chat model behind [AzureChatOpenAI(...)]: what the n-th call
    of the run (counted from 0) returns as [response.content] for the given
    messages, or the message of the exception it raises. *)
Variable AzureChatOpenAI : llm_settings -> nat -> list message -> outcome string.

(** ** [extract_text_from_pdf] *)

(** The body of [for page in doc: text += page.get_text()]. *)
Fixpoint page_loop (doc : list fitz_page) (text : string) : outcome string :=
  match doc with
  | [] => Returns text
  | page :: rest => t <- get_text page ;; page_loop rest (text ++ t)
  end.

(** The [try] block. *)
Definition extract_attempt (file : uploaded_file) : outcome string :=
  data <- read file ;;
  doc <- fitz_open data ;;
  page_loop doc "".

Definition extract_text_from_pdf (file : uploaded_file) : string * list event :=
  match extract_attempt file with
  | Returns text => (text, [pdf_read (name file)])
  | Raises e =>
      ("", [pdf_read (name file); st_error ("Error reading PDF file: " ++ e)])
  end.

(** ** [score_resume] *)

Definition system_prompt : string :=
  "You are a helpful assistant that scores how well a resume matches a job description. "
  ++ "Score on a scale of 0 to 100, where 0 means no match and 100 means perfect fit. "
  ++ "Provide only the score as a number.".

Definition query (jd_text resume_text resume_name : string) : string :=
  "Job Description:" ++ nl ++ "---" ++ nl ++ jd_text ++ nl ++ "---" ++ nl
  ++ "Resume (" ++ resume_name ++ "):" ++ nl ++ "---" ++ nl
  ++ resume_text ++ nl ++ "---" ++ nl
  ++ "On a scale from 0 to 100, how well does this resume match the job description? "
  ++ "Reply only with the numeric score.".

Definition messages_for (jd_text resume_text resume_name : string)
  : list message :=
  [SystemMessage system_prompt;
   HumanMessage (query jd_text resume_text resume_name)].

(** The [try] block: call, strip, parse, clamp. *)
Definition score_attempt (llm : list message -> outcome string)
    (messages : list message) : outcome pynum :=
  content <- llm messages ;;
  score <- py_float (strip content) ;;
  Returns (py_max (PyInt 0) (py_min (PyInt 100) (PyFloat score))).

Definition score_resume (llm : list message -> outcome string)
    (jd_text resume_text resume_name : string) : pynum * list event :=
  let messages := messages_for jd_text resume_text resume_name in
  match score_attempt llm messages with
  | Returns score => (score, [llm_call messages])
  | Raises e =>
      (PyInt (-1),
       [llm_call messages;
        st_warning ("Could not score resume '" ++ resume_name ++ "': " ++ e)])
  end.

(** ** [main] *)

(** Where a run of [main] leaves the function.  Python's [main] returns
    [None] on every path; the tag records which [return] (or the end of the
    function) was reached. *)
Inductive exit_point : Type :=
| not_started
| too_many_resumes
| job_description_unreadable
| no_resume_texts
| configuration_missing
| ranked (scores : list score_entry).

(** The extraction loop, filling [resumes_texts]. *)
Fixpoint extract_loop (resume_files : list uploaded_file) (resumes_texts : dict)
  : dict * list event :=
  match resume_files with
  | [] => (resumes_texts, [])
  | file :: rest =>
      let '(text, ev) := extract_text_from_pdf file in
      let warn :=
        if String.eqb (strip text) ""
        then [st_warning ("No text extracted from resume: " ++ name file)]
        else [] in
      let '(d, ev') := extract_loop rest (dict_set resumes_texts (name file) text) in
      (d, ev ++ warn ++ ev')
  end.

(** The scoring loop over [enumerate(resumes_texts.items())], appending to
    [scores]. *)
Fixpoint score_loop (llm : nat -> list message -> outcome string)
    (jd_text : string) (items : list (string * string)) (idx total : nat)
    (scores : list score_entry) : list score_entry * list event :=
  match items with
  | [] => (scores, [])
  | (resume_name, text) :: rest =>
      let '(score, ev) := score_resume (llm idx) jd_text text resume_name in
      let '(final, ev') :=
        score_loop llm jd_text rest (S idx) total
          (scores ++ [{| entry_name := resume_name; entry_score := score |}]) in
      (final, ev ++ [st_progress (S idx) total] ++ ev')
  end.

(** The display loop over [enumerate(scores, start=1)]; [None] stands for
    the text N/A, [Some s] for [s] printed with two decimals. *)
Fixpoint display_loop (i : nat) (scores : list score_entry) : list event :=
  match scores with
  | [] => []
  | item :: rest =>
      ranked_line i (entry_name item)
        (if py_eq (entry_score item) (PyInt (-1)) then None
         else Some (entry_score item))
      :: display_loop (S i) rest
  end.

(** Truth value of an environment variable: unset and empty are false. *)
Definition truthy (v : option string) : bool :=
  match v with
  | Some s => negb (String.eqb s "")
  | None => false
  end.

Definition getenv_default (k default : string) : string :=
  match getenv k with
  | Some v => v
  | None => default
  end.

Definition main (jd_file : option uploaded_file)
    (resume_files : list uploaded_file) : exit_point * list event :=
  match jd_file, resume_files with
  | Some jd, _ :: _ =>
      if Nat.ltb 10 (List.length resume_files) then
        (too_many_resumes, [st_warning "Please upload no more than 10 resumes."])
      else
        match (data <- read jd ;; decode_utf8 data) with
        | Raises e =>
            (job_description_unreadable,
             [st_error ("Could not read Job Description file: " ++ e)])
        | Returns jd_text =>
            let '(resumes_texts, ev1) := extract_loop resume_files [] in
            if Nat.eqb (List.length resumes_texts) 0 then
              (no_resume_texts,
               ev1 ++ [st_error "No resume texts available to score."])
            else
              let AZURE_OPENAI_API_KEY := getenv "AZURE_OPENAI_API_KEY" in
              let AZURE_OPENAI_ENDPOINT := getenv "AZURE_OPENAI_ENDPOINT" in
              let AZURE_OPENAI_DEPLOYMENT := getenv "AZURE_OPENAI_DEPLOYMENT_NAME" in
              let AZURE_OPENAI_API_VERSION :=
                getenv_default "AZURE_OPENAI_API_VERSION" "2023-05-15" in
              if negb (forallb truthy [AZURE_OPENAI_API_KEY;
                                       AZURE_OPENAI_ENDPOINT;
                                       AZURE_OPENAI_DEPLOYMENT]) then
                (configuration_missing,
                 ev1 ++ [st_error ("Azure OpenAI environment variables are not set. "
                   ++ "Please set AZURE_OPENAI_API_KEY, AZURE_OPENAI_ENDPOINT, "
                   ++ "and AZURE_OPENAI_DEPLOYMENT_NAME.")])
              else
                let llm := AzureChatOpenAI
                  {| azure_deployment := AZURE_OPENAI_DEPLOYMENT;
                     azure_endpoint := AZURE_OPENAI_ENDPOINT;
                     openai_api_key := AZURE_OPENAI_API_KEY;
                     openai_api_version := AZURE_OPENAI_API_VERSION;
                     temperature := 0%Z;
                     max_tokens := 100%Z |} in
                let '(scores, ev2) :=
                  score_loop llm jd_text resumes_texts 0 (List.length resumes_texts) [] in
                let scores := sorted_by_score_desc scores in
                (ranked scores, ev1 ++ ev2 ++ display_loop 1 scores)
        end
  | _, _ => (not_started, [])
  end.

End Program.

(** ** Derived notions used in the statements *)

(** The values [score_resume] can return: the sentinel, the two integer
    bounds of the clamp, or a double strictly between them. *)
Definition possible_score (s : pynum) : bool :=
  match s with
  | PyInt z => Z.eqb z (-1) || Z.eqb z 0 || Z.eqb z 100
  | PyFloat x => PrimFloat.ltb 0 x && PrimFloat.ltb x 100
  end.

Definition is_sentinel (s : pynum) : bool := py_eq s (PyInt (-1)).

Definition is_llm_call (e : event) : bool :=
  match e with llm_call _ => true | _ => false end.

Definition is_pdf_read (e : event) : bool :=
  match e with pdf_read _ => true | _ => false end.


Definition is_warning (e : event) : bool :=
  match e with st_warning _ => true | _ => false end.

(** A run did no work: it neither opened a resume nor called the model. *)
Definition no_work (trace : list event) : Prop :=
  Forall (fun e => is_pdf_read e = false /\ is_llm_call e = false) trace.

(** [all([AZURE_OPENAI_API_KEY, AZURE_OPENAI_ENDPOINT, AZURE_OPENAI_DEPLOYMENT])]. *)
Definition required_settings_present (getenv : string -> option string) : bool :=
  forallb truthy [getenv "AZURE_OPENAI_API_KEY";
                  getenv "AZURE_OPENAI_ENDPOINT";
                  getenv "AZURE_OPENAI_DEPLOYMENT_NAME"].

(** [jd_file.read().decode("utf-8")]. *)
Definition read_job_description
    (decode_utf8 : list Byte.byte -> outcome string) (jd : uploaded_file)
  : outcome string :=
  data <- read jd ;; decode_utf8 data.

(** The model object [main] builds once the settings are present. *)
Definition configured_llm (getenv : string -> option string)
    (AzureChatOpenAI : llm_settings -> nat -> list message -> outcome string)
  : nat -> list message -> outcome string :=
  AzureChatOpenAI
    {| azure_deployment := getenv "AZURE_OPENAI_DEPLOYMENT_NAME";
       azure_endpoint := getenv "AZURE_OPENAI_ENDPOINT";
       openai_api_key := getenv "AZURE_OPENAI_API_KEY";
       openai_api_version :=
         getenv_default getenv "AZURE_OPENAI_API_VERSION" "2023-05-15";
       temperature := 0%Z;
       max_tokens := 100%Z |}.

(** A stream is a well-formed PDF with page texts [texts] when reading it,
    opening it and getting the text of each page all succeed. *)
Definition well_formed_pdf
    (fitz_open : list Byte.byte -> outcome (list fitz_page))
    (file : uploaded_file) (texts : list string) : Prop :=
  exists data doc,
    read file = Returns data /\ fitz_open data = Returns doc /\
    map get_text doc = map Returns texts.

Definition is_nan_sf (x : spec_float) : bool :=
  match x with S754_nan => true | _ => false end.

Definition is_nan (x : float) : bool := is_nan_sf (Prim2SF x).

(** * Facts about the order of doubles *)

Module FloatOrder.

Ltac cmp_cases :=
  repeat match goal with
  | |- context [Z.compare ?a ?b] => destruct (Z.compare_spec a b)
  | H : context [Z.compare ?a ?b] |- _ => destruct (Z.compare_spec a b)
  | |- context [PosDef.Pos.compare_cont Eq ?a ?b] =>
      change (PosDef.Pos.compare_cont Eq a b) with (Pos.compare a b);
      destruct (Pos.compare_spec a b)
  | H : context [PosDef.Pos.compare_cont Eq ?a ?b] |- _ =>
      change (PosDef.Pos.compare_cont Eq a b) with (Pos.compare a b) in H;
      destruct (Pos.compare_spec a b)
  end.

Ltac sf_split x :=
  let s := fresh "s" in
  let m := fresh "m" in
  let e := fresh "e" in
  destruct x as [s|s| |s m e]; try destruct s.

Ltac sf_finish :=
  cbn in *; try congruence; try tauto;
  cmp_cases; subst; cbn in *; try congruence; try lia; try tauto.

Lemma SFltb_irrefl x : SFltb x x = false.
Proof. unfold SFltb. sf_split x; sf_finish. Qed.

Lemma SFltb_trans x y z :
  SFltb x y = true -> SFltb y z = true -> SFltb x z = true.
Proof. unfold SFltb. sf_split x; sf_split y; sf_split z; sf_finish. Qed.

Lemma SFltb_asym x y : SFltb x y = true -> SFltb y x = false.
Proof. unfold SFltb. sf_split x; sf_split y; sf_finish. Qed.

Lemma SFltb_cotrans x y z :
  is_nan_sf z = false -> SFltb x y = true ->
  SFltb x z = true \/ SFltb z y = true.
Proof. unfold SFltb. sf_split x; sf_split y; sf_split z; sf_finish. Qed.

Lemma SFleb_ltb_eqb x y : SFleb x y = SFltb x y || SFeqb x y.
Proof.
  unfold SFleb, SFltb, SFeqb.
  destruct (SFcompare x y) as [[]|]; reflexivity.
Qed.

Lemma SFeqb_of_not_ltb x y :
  is_nan_sf x = false -> is_nan_sf y = false ->
  SFltb x y = false -> SFltb y x = false -> SFeqb x y = true.
Proof. unfold SFltb, SFeqb. sf_split x; sf_split y; sf_finish. Qed.

Lemma SFeqb_not_ltb x y : SFeqb x y = true -> SFltb x y = false /\ SFltb y x = false.
Proof. unfold SFltb, SFeqb. sf_split x; sf_split y; sf_finish. Qed.

Lemma SFltb_not_nan x y :
  SFltb x y = true -> is_nan_sf x = false /\ is_nan_sf y = false.
Proof. unfold SFltb. sf_split x; sf_split y; sf_finish. Qed.

Lemma SFeqb_sym x y : SFeqb x y = SFeqb y x.
Proof. unfold SFeqb. sf_split x; sf_split y; sf_finish. Qed.

Lemma SFltb_nan_l x y : is_nan_sf x = true -> SFltb x y = false.
Proof. unfold SFltb. sf_split x; sf_split y; sf_finish. Qed.

(** The same facts on primitive doubles, through their specification. *)

Lemma ltb_irrefl x : PrimFloat.ltb x x = false.
Proof. rewrite ltb_spec. apply SFltb_irrefl. Qed.

Lemma ltb_trans x y z :
  PrimFloat.ltb x y = true -> PrimFloat.ltb y z = true ->
  PrimFloat.ltb x z = true.
Proof. rewrite !ltb_spec. apply SFltb_trans. Qed.

Lemma ltb_asym x y : PrimFloat.ltb x y = true -> PrimFloat.ltb y x = false.
Proof. rewrite !ltb_spec. apply SFltb_asym. Qed.

Lemma ltb_cotrans x y z :
  is_nan z = false -> PrimFloat.ltb x y = true ->
  PrimFloat.ltb x z = true \/ PrimFloat.ltb z y = true.
Proof. rewrite !ltb_spec. apply SFltb_cotrans. Qed.

Lemma leb_ltb_eqb x y :
  PrimFloat.leb x y = PrimFloat.ltb x y || PrimFloat.eqb x y.
Proof. rewrite leb_spec, ltb_spec, eqb_spec. apply SFleb_ltb_eqb. Qed.

Lemma eqb_of_not_ltb x y :
  is_nan x = false -> is_nan y = false ->
  PrimFloat.ltb x y = false -> PrimFloat.ltb y x = false ->
  PrimFloat.eqb x y = true.
Proof. rewrite !ltb_spec, eqb_spec. apply SFeqb_of_not_ltb. Qed.

Lemma eqb_not_ltb x y :
  PrimFloat.eqb x y = true ->
  PrimFloat.ltb x y = false /\ PrimFloat.ltb y x = false.
Proof. rewrite !ltb_spec, eqb_spec. apply SFeqb_not_ltb. Qed.

Lemma ltb_not_nan x y :
  PrimFloat.ltb x y = true -> is_nan x = false /\ is_nan y = false.
Proof. rewrite ltb_spec. apply SFltb_not_nan. Qed.

Lemma ltb_nan_l x y : is_nan x = true -> PrimFloat.ltb x y = false.
Proof. rewrite ltb_spec. apply SFltb_nan_l. Qed.

Lemma eqb_sym x y : PrimFloat.eqb x y = PrimFloat.eqb y x.
Proof. rewrite !eqb_spec. apply SFeqb_sym. Qed.

Lemma eqb_refl x : is_nan x = false -> PrimFloat.eqb x x = true.
Proof.
  intros H. apply eqb_of_not_ltb; auto using ltb_irrefl.
Qed.

End FloatOrder.

(** * The order of the scores [score_resume] can return *)

Module ScoreOrder.
Import FloatOrder.

Ltac split_int z H :=
  apply orb_true_iff in H; destruct H as [H|H];
  [apply orb_true_iff in H; destruct H as [H|H]|];
  apply Z.eqb_eq in H; subst z.

Lemma possible_not_nan a :
  possible_score a = true -> is_nan (as_float a) = false.
Proof.
  destruct a as [z|x]; cbn [possible_score as_float]; intros H.
  - split_int z H; vm_compute; reflexivity.
  - apply andb_true_iff in H. destruct H as [H _].
    apply ltb_not_nan in H. tauto.
Qed.

Lemma possible_lt_float a b :
  possible_score a = true -> possible_score b = true ->
  py_lt a b = PrimFloat.ltb (as_float a) (as_float b).
Proof.
  destruct a as [i|x], b as [j|y]; try reflexivity.
  cbn [possible_score]. intros Hi Hj.
  split_int i Hi; split_int j Hj; vm_compute; reflexivity.
Qed.

Lemma possible_eq_float a b :
  possible_score a = true -> possible_score b = true ->
  py_eq a b = PrimFloat.eqb (as_float a) (as_float b).
Proof.
  destruct a as [i|x], b as [j|y]; try reflexivity.
  cbn [possible_score]. intros Hi Hj.
  split_int i Hi; split_int j Hj; vm_compute; reflexivity.
Qed.

Lemma py_lt_irrefl a : possible_score a = true -> py_lt a a = false.
Proof. intros H. rewrite possible_lt_float by assumption. apply ltb_irrefl. Qed.

Lemma py_lt_trans a b c :
  possible_score a = true -> possible_score b = true ->
  possible_score c = true ->
  py_lt a b = true -> py_lt b c = true -> py_lt a c = true.
Proof.
  intros Ha Hb Hc. rewrite !possible_lt_float by assumption. apply ltb_trans.
Qed.

Lemma py_lt_asym a b :
  possible_score a = true -> possible_score b = true ->
  py_lt a b = true -> py_lt b a = false.
Proof.
  intros Ha Hb. rewrite !possible_lt_float by assumption. apply ltb_asym.
Qed.

Lemma py_lt_cotrans a b c :
  possible_score a = true -> possible_score b = true ->
  possible_score c = true ->
  py_lt a b = true -> py_lt a c = true \/ py_lt c b = true.
Proof.
  intros Ha Hb Hc. rewrite !possible_lt_float by assumption.
  apply ltb_cotrans. now apply possible_not_nan.
Qed.

Lemma py_eq_incomparable a b :
  possible_score a = true -> possible_score b = true ->
  py_eq a b = negb (py_lt a b) && negb (py_lt b a).
Proof.
  intros Ha Hb.
  rewrite possible_eq_float, !possible_lt_float by assumption.
  destruct (PrimFloat.eqb (as_float a) (as_float b)) eqn:E.
  - apply eqb_not_ltb in E. destruct E as [-> ->]. reflexivity.
  - destruct (PrimFloat.ltb (as_float a) (as_float b)) eqn:L1; [reflexivity|].
    destruct (PrimFloat.ltb (as_float b) (as_float a)) eqn:L2; [reflexivity|].
    rewrite eqb_of_not_ltb in E; auto using possible_not_nan.
Qed.

(** The sentinel is strictly below every other possible score. *)
Lemma sentinel_least b :
  possible_score b = true ->
  py_lt b (PyInt (-1)) = false /\
  (is_sentinel b = false -> py_lt (PyInt (-1)) b = true).
Proof.
  unfold is_sentinel. destruct b as [j|y]; cbn [possible_score]; intros H.
  - split_int j H; vm_compute; auto.
  - apply andb_true_iff in H. destruct H as [H0 _].
    assert (L : PrimFloat.ltb (as_float (PyInt (-1))) y = true).
    { apply ltb_trans with (y := 0%float); [vm_compute; reflexivity|exact H0]. }
    cbn [py_lt py_eq as_float]. split; [now apply ltb_asym|intros _; exact L].
Qed.

Lemma sentinel_is_minus_one b :
  possible_score b = true -> is_sentinel b = true -> b = PyInt (-1).
Proof.
  intros Hb Hs. destruct (sentinel_least b Hb) as [H1 H2].
  unfold is_sentinel in *.
  rewrite py_eq_incomparable in Hs by (assumption || reflexivity).
  destruct b as [j|y]; cbn [possible_score] in Hb.
  - split_int j Hb; [reflexivity| |]; vm_compute in Hs; discriminate.
  - apply andb_true_iff in Hb. destruct Hb as [H0 _].
    apply andb_true_iff in Hs. destruct Hs as [_ Hs].
    assert (L : py_lt (PyInt (-1)) (PyFloat y) = true).
    { apply ltb_trans with (y := 0%float); [vm_compute; reflexivity|exact H0]. }
    rewrite L in Hs. discriminate.
Qed.

End ScoreOrder.

(** * Facts about [sorted(..., reverse=True)] *)

Section SortingFacts.
Context {A : Type} (lt : A -> A -> bool).

(** The elements being sorted come from a domain on which [<] is a strict
    weak order. *)
Variable dom : A -> Prop.
Hypothesis lt_asym : forall a b, dom a -> dom b -> lt a b = true -> lt b a = false.
Hypothesis lt_cotrans :
  forall a b c, dom a -> dom b -> dom c ->
  lt a b = true -> lt a c = true \/ lt c b = true.

Local Abbreviation asc := (ascending lt).
Local Abbreviation desc := (descending lt).
Local Abbreviation same := (same_key lt).

Lemma forall_perm (P : A -> Prop) l l' :
  Permutation l l' -> Forall P l -> Forall P l'.
Proof.
  intros HP. rewrite !Forall_forall. intros H z Hz.
  apply H. apply Permutation_in with (l := l'); [now symmetry|exact Hz].
Qed.

Lemma insert_right_perm x l : Permutation (insert_right lt x l) (x :: l).
Proof.
  induction l as [|y l IH]; cbn; [reflexivity|].
  destruct (lt x y); [reflexivity|].
  rewrite IH. apply perm_swap.
Qed.

Lemma sort_ascending_perm_acc l : forall acc,
  Permutation (fold_left (fun acc x => insert_right lt x acc) l acc) (acc ++ l).
Proof.
  induction l as [|x l IH]; intros acc; cbn.
  - now rewrite app_nil_r.
  - rewrite IH, insert_right_perm.
    rewrite (Permutation_middle acc l x). reflexivity.
Qed.

Lemma sorted_reverse_perm l : Permutation (sorted_reverse lt l) l.
Proof.
  unfold sorted_reverse, sort_ascending.
  rewrite <- Permutation_rev, sort_ascending_perm_acc. cbn.
  symmetry. apply Permutation_rev.
Qed.

Lemma insert_right_dom x l :
  dom x -> Forall dom l -> Forall dom (insert_right lt x l).
Proof.
  intros Hx Hl.
  apply (forall_perm dom (x :: l)); [|now constructor].
  symmetry. apply insert_right_perm.
Qed.

Lemma insert_right_ascending x l :
  dom x -> Forall dom l -> asc l -> asc (insert_right lt x l).
Proof.
  intros Hx Hd Hs. revert Hd.
  induction Hs as [|y l Hs IH Hy]; intros Hd; cbn.
  - constructor; constructor.
  - inversion Hd as [|? ? Dy Dl]; subst.
    destruct (lt x y) eqn:E.
    + constructor; [now constructor|].
      constructor; [now apply lt_asym|].
      rewrite Forall_forall in Hy, Dl |- *. intros z Hz.
      destruct (lt_cotrans x y z Hx Dy (Dl z Hz) E) as [L|L].
      * apply lt_asym; auto.
      * rewrite Hy in L by assumption. discriminate.
    + constructor; [now apply IH|].
      apply (forall_perm _ (x :: l)).
      * symmetry. apply insert_right_perm.
      * now constructor.
Qed.

Lemma insert_right_stable v x l :
  dom v -> dom x -> Forall dom l -> asc l ->
  filter (same v) (insert_right lt x l)
  = filter (same v) l ++ filter (same v) [x].
Proof.
  intros Hv Hx Hd Hs. revert Hd.
  induction Hs as [|y l Hs IH Hy]; intros Hd.
  - reflexivity.
  - inversion Hd as [|? ? Dy Dl]; subst. cbn [insert_right].
    destruct (lt x y) eqn:E.
    + (* nothing from [y] on has the key of [v] when [x] has it *)
      cbn [filter]. destruct (same v x) eqn:Kx.
      * assert (N : filter (same v) (y :: l) = []).
        { apply andb_true_iff in Kx. destruct Kx as [K1 K2].
          apply negb_true_iff in K1, K2.
          assert (Hy' : Forall (fun z => lt x z = true) (y :: l)).
          { constructor; [exact E|].
            rewrite Forall_forall in Hy, Dl |- *. intros z Hz.
            destruct (lt_cotrans x y z Hx Dy (Dl z Hz) E) as [L|L]; [exact L|].
            rewrite Hy in L by assumption. discriminate. }
          clear - Hy' K1 K2 Hv Hx Hd lt_cotrans.
          induction Hy' as [|z r Hz _ IHr]; [reflexivity|].
          inversion Hd as [|? ? Dz Dr]; subst. cbn [filter].
          replace (same v z) with false; [now apply IHr|].
          symmetry. unfold same.
          destruct (lt_cotrans x z v Hx Dz Hv Hz) as [L|L]; [congruence|].
          rewrite L. reflexivity. }
        cbn [filter] in N. rewrite N. reflexivity.
      * now rewrite app_nil_r.
    + cbn [filter]. rewrite IH by assumption.
      destruct (same v y); reflexivity.
Qed.

Lemma sort_ascending_acc l : forall acc,
  Forall dom acc -> Forall dom l -> asc acc ->
  let s := fold_left (fun acc x => insert_right lt x acc) l acc in
  asc s /\
  forall v, dom v ->
    filter (same v) s = filter (same v) acc ++ filter (same v) l.
Proof.
  induction l as [|x l IH]; intros acc Da Dl Sa; cbn zeta.
  - split; [exact Sa|]. intros v _. now rewrite app_nil_r.
  - inversion Dl as [|? ? Dx Dl']; subst. cbn [fold_left].
    destruct (IH (insert_right lt x acc)) as [S1 S2];
      auto using insert_right_dom, insert_right_ascending.
    split; [exact S1|]. intros v Dv.
    rewrite S2, insert_right_stable by assumption.
    change (x :: l) with ([x] ++ l).
    rewrite filter_app, <- app_assoc. reflexivity.
Qed.

Lemma strongly_sorted_snoc (R : A -> A -> Prop) l x :
  StronglySorted R l -> Forall (fun y => R y x) l ->
  StronglySorted R (l ++ [x]).
Proof.
  induction 1 as [|y l Hs IH Hy]; intros Hx; cbn.
  - constructor; constructor.
  - inversion Hx; subst. constructor; [now apply IH|].
    apply Forall_app. split; [assumption|]. now constructor.
Qed.

Lemma ascending_rev l : asc l -> desc (rev l).
Proof.
  induction 1 as [|y l Hs IH Hy]; cbn; [constructor|].
  apply strongly_sorted_snoc; [exact IH|].
  apply Forall_rev. exact Hy.
Qed.

Lemma filter_rev (f : A -> bool) l : filter f (rev l) = rev (filter f l).
Proof.
  induction l as [|x l IH]; [reflexivity|].
  cbn. rewrite filter_app, IH. cbn. destruct (f x); cbn.
  - reflexivity.
  - now rewrite app_nil_r.
Qed.

Lemma sorted_reverse_descending l :
  Forall dom l -> desc (sorted_reverse lt l).
Proof.
  intros D. apply ascending_rev.
  apply (sort_ascending_acc (rev l) []); auto using Forall_rev.
  constructor.
Qed.

Lemma sorted_reverse_stable l v :
  Forall dom l -> dom v ->
  filter (same v) (sorted_reverse lt l) = filter (same v) l.
Proof.
  intros D Dv. unfold sorted_reverse, sort_ascending.
  rewrite filter_rev.
  destruct (sort_ascending_acc (rev l) []) as [_ S];
    [constructor|now apply Forall_rev|constructor|].
  cbn zeta in S. rewrite S by assumption. cbn.
  rewrite filter_rev. apply rev_involutive.
Qed.

End SortingFacts.

(** * Facts about the [resumes_texts] dictionary *)

Module DictFacts.

Lemma keys_set_in d k v k' :
  In k' (dict_keys (dict_set d k v)) <-> k' = k \/ In k' (dict_keys d).
Proof.
  induction d as [|[k0 v0] d IH]; cbn.
  - intuition congruence.
  - destruct (String.eqb_spec k0 k) as [->|N]; cbn.
    + intuition congruence.
    + fold (dict_keys (dict_set d k v)). fold (dict_keys d).
      rewrite IH. intuition congruence.
Qed.

Lemma keys_set_nodup d k v :
  NoDup (dict_keys d) -> NoDup (dict_keys (dict_set d k v)).
Proof.
  induction d as [|[k0 v0] d IH]; cbn; intros H.
  - constructor; [intros []|constructor].
  - inversion H as [|? ? Hn Hd]; subst.
    destruct (String.eqb_spec k0 k) as [->|N]; cbn.
    + now constructor.
    + constructor; [|now apply IH].
      fold (dict_keys (dict_set d k v)). rewrite keys_set_in.
      intros [E|I]; [congruence|contradiction].
Qed.

Lemma get_set_same d k v : dict_get (dict_set d k v) k = Some v.
Proof.
  induction d as [|[k0 v0] d IH]; cbn.
  - now rewrite String.eqb_refl.
  - destruct (String.eqb_spec k0 k) as [->|N]; cbn.
    + now rewrite String.eqb_refl.
    + destruct (String.eqb_spec k0 k); [contradiction|exact IH].
Qed.

Lemma get_set_other d k v k' :
  k' <> k -> dict_get (dict_set d k v) k' = dict_get d k'.
Proof.
  intros N. induction d as [|[k0 v0] d IH]; cbn.
  - destruct (String.eqb_spec k k'); [congruence|reflexivity].
  - destruct (String.eqb_spec k0 k) as [->|N0]; cbn.
    + destruct (String.eqb_spec k k'); [congruence|reflexivity].
    + now rewrite IH.
Qed.

Lemma get_in d k v : dict_get d k = Some v -> In (k, v) d.
Proof.
  induction d as [|[k0 v0] d IH]; cbn; [discriminate|].
  destruct (String.eqb_spec k0 k) as [->|N]; intros H.
  - left. congruence.
  - right. now apply IH.
Qed.

Lemma nodup_same_length (l l' : list string) :
  NoDup l -> NoDup l' -> (forall k, In k l <-> In k l') ->
  List.length l = List.length l'.
Proof.
  intros H H' E. apply Permutation_length.
  now apply NoDup_Permutation.
Qed.

End DictFacts.

(** * Facts about the two loops of [main] *)

Section LoopFacts.
Import DictFacts.

Variable fitz_open : list Byte.byte -> outcome (list fitz_page).

Local Abbreviation extract := (extract_text_from_pdf fitz_open).
Local Abbreviation extract_all := (extract_loop fitz_open).

Lemma extract_events file :
  snd (extract file) = [pdf_read (name file)] \/
  exists e, snd (extract file)
            = [pdf_read (name file); st_error ("Error reading PDF file: " ++ e)].
Proof.
  unfold extract_text_from_pdf.
  destruct (extract_attempt fitz_open file); cbn; eauto.
Qed.

Lemma extract_loop_keys files : forall d,
  NoDup (dict_keys d) ->
  NoDup (dict_keys (fst (extract_all files d))) /\
  forall k, In k (dict_keys (fst (extract_all files d)))
            <-> In k (dict_keys d) \/ In k (map name files).
Proof.
  induction files as [|f files IH]; intros d Hd; cbn [extract_loop].
  - cbn. split; [exact Hd|]. tauto.
  - destruct (extract f) as [text ev].
    specialize (IH (dict_set d (name f) text) (keys_set_nodup _ _ _ Hd)).
    destruct (extract_all files (dict_set d (name f) text)) as [d' ev'].
    cbn [fst] in *. destruct IH as [N I]. split; [exact N|].
    intros k. rewrite I, keys_set_in. cbn. intuition congruence.
Qed.

Lemma extract_loop_keeps files : forall d k,
  (forall g, In g files -> name g <> k) ->
  dict_get (fst (extract_all files d)) k = dict_get d k.
Proof.
  induction files as [|f files IH]; intros d k H; cbn [extract_loop].
  - reflexivity.
  - destruct (extract f) as [text ev].
    specialize (IH (dict_set d (name f) text) k).
    destruct (extract_all files (dict_set d (name f) text)) as [d' ev'].
    cbn [fst] in *. rewrite IH by (intros g Hg; apply H; now right).
    apply get_set_other. intros E. apply (H f); [now left|now symmetry].
Qed.

(** The text kept under a name is the one of the last file of that name. *)
Lemma extract_loop_get pre f post : forall d,
  (forall g, In g post -> name g <> name f) ->
  dict_get (fst (extract_all (pre ++ f :: post) d)) (name f)
  = Some (fst (extract f)).
Proof.
  induction pre as [|p pre IH]; intros d H; cbn [app extract_loop].
  - destruct (extract f) as [text ev] eqn:E.
    pose proof (extract_loop_keeps post (dict_set d (name f) text) (name f) H) as K.
    destruct (extract_all post (dict_set d (name f) text)) as [d' ev'].
    cbn [fst] in *. rewrite K. apply get_set_same.
  - destruct (extract p) as [text ev].
    specialize (IH (dict_set d (name p) text) H).
    destruct (extract_all (pre ++ f :: post) (dict_set d (name p) text)).
    exact IH.
Qed.

Lemma extract_loop_trace files : forall d,
  let trace := snd (extract_all files d) in
  Forall (fun e => is_llm_call e = false) trace /\
  (forall f, In f files -> In (pdf_read (name f)) trace) /\
  (forall f, In f files -> strip (fst (extract f)) = "" ->
     In (st_warning ("No text extracted from resume: " ++ name f)) trace).
Proof.
  induction files as [|f files IH]; intros d; cbn zeta; cbn [extract_loop].
  - cbn. repeat split; [constructor|intros ? []|intros ? []].
  - pose proof (extract_events f) as Ev.
    destruct (extract f) as [text ev] eqn:E. cbn [fst snd] in Ev.
    specialize (IH (dict_set d (name f) text)).
    destruct (extract_all files (dict_set d (name f) text)) as [d' ev'].
    cbn [snd fst] in *. destruct IH as (I1 & I2 & I3).
    assert (Hr : In (pdf_read (name f)) ev).
    { destruct Ev as [->|[e ->]]; now left. }
    repeat split.
    + apply Forall_app. split.
      * destruct Ev as [->|[e ->]]; repeat constructor.
      * apply Forall_app. split; [|exact I1].
        destruct (String.eqb _ _); repeat constructor.
    + intros g [<-|Hg].
      * apply in_or_app. now left.
      * apply in_or_app. right. apply in_or_app. right. now apply I2.
    + intros g [<-|Hg] B.
      * rewrite E in B. cbn [fst] in B. rewrite B. cbn.
        apply in_or_app. right. now left.
      * apply in_or_app. right. apply in_or_app. right. now apply I3.
Qed.

Lemma float_of_int_0 : float_of_int 0 = 0%float.
Proof. vm_compute. reflexivity. Qed.

Lemma float_of_int_100 : float_of_int 100 = 100%float.
Proof. vm_compute. reflexivity. Qed.

(** The three ways [max(0, min(100, x))] comes out. *)
Lemma clamp_cases x :
  let r := py_max (PyInt 0) (py_min (PyInt 100) (PyFloat x)) in
  (PrimFloat.ltb 0 x = true /\ PrimFloat.ltb x 100 = true /\ r = PyFloat x) \/
  (PrimFloat.ltb 0 x = false /\ PrimFloat.ltb x 100 = true /\ r = PyInt 0) \/
  (PrimFloat.ltb x 100 = false /\ r = PyInt 100).
Proof.
  unfold py_min, py_max. cbn [py_lt as_float].
  rewrite float_of_int_100.
  destruct (PrimFloat.ltb x 100) eqn:H100.
  - cbn [py_lt as_float]. rewrite float_of_int_0.
    destruct (PrimFloat.ltb 0 x) eqn:H0; auto.
  - right. right. split; reflexivity.
Qed.

Lemma clamp_possible x :
  possible_score (py_max (PyInt 0) (py_min (PyInt 100) (PyFloat x))) = true.
Proof.
  destruct (clamp_cases x) as [(H0 & H1 & ->)|[(H0 & H1 & ->)|(H1 & ->)]];
    cbn [possible_score]; [now rewrite H0, H1|reflexivity|reflexivity].
Qed.

Variable py_float : string -> outcome float.

Lemma score_resume_possible llm jd text n :
  possible_score (fst (score_resume py_float llm jd text n)) = true.
Proof.
  unfold score_resume, score_attempt, bind.
  destruct (llm _) as [content|e]; [|reflexivity].
  destruct (py_float _) as [x|e]; [|reflexivity].
  apply clamp_possible.
Qed.

Lemma score_resume_trace llm jd text n :
  let trace := snd (score_resume py_float llm jd text n) in
  In (llm_call (messages_for jd text n)) trace /\
  Forall (fun e => is_pdf_read e = false) trace.
Proof.
  unfold score_resume.
  destruct (score_attempt _ _ _); cbn; split; auto; repeat constructor.
Qed.

Lemma score_loop_entries llm jd items : forall idx total scores,
  exists new,
    fst (score_loop py_float llm jd items idx total scores) = scores ++ new /\
    map entry_name new = map fst items /\
    Forall (fun e => possible_score (entry_score e) = true) new.
Proof.
  induction items as [|[n t] items IH]; intros idx total scores;
    cbn [score_loop].
  - exists []. cbn. rewrite app_nil_r. auto.
  - pose proof (score_resume_possible (llm idx) jd t n) as P.
    destruct (score_resume py_float (llm idx) jd t n) as [score ev].
    cbn [fst] in P.
    destruct (IH (S idx) total
                (scores ++ [{| entry_name := n; entry_score := score |}]))
      as (new & E & M & F).
    destruct (score_loop _ _ _ _ _ _ _) as [final ev']. cbn [fst] in *.
    exists ({| entry_name := n; entry_score := score |} :: new).
    rewrite E, <- app_assoc. cbn. rewrite M. repeat split.
    constructor; assumption.
Qed.

Lemma score_loop_trace llm jd items : forall idx total scores,
  let trace := snd (score_loop py_float llm jd items idx total scores) in
  (forall n t, In (n, t) items -> In (llm_call (messages_for jd t n)) trace) /\
  Forall (fun e => is_pdf_read e = false) trace.
Proof.
  induction items as [|[n t] items IH]; intros idx total scores;
    cbn zeta; cbn [score_loop].
  - cbn. split; [intros ? ? []|constructor].
  - pose proof (score_resume_trace (llm idx) jd t n) as T.
    destruct (score_resume py_float (llm idx) jd t n) as [score ev].
    cbn zeta in T. cbn [snd] in T. destruct T as [T1 T2].
    specialize (IH (S idx) total
                  (scores ++ [{| entry_name := n; entry_score := score |}])).
    destruct (score_loop _ _ _ _ _ _ _) as [final ev']. cbn [snd] in *.
    destruct IH as [I1 I2]. split.
    + intros n' t' [E|I].
      * inversion E; subst. apply in_or_app. now left.
      * apply in_or_app. right. right. now apply I1.
    + apply Forall_app. split; [exact T2|].
      constructor; [reflexivity|exact I2].
Qed.


End LoopFacts.

(** * Facts about [main] *)

Section MainFacts.
Import DictFacts.

Variable py_float : string -> outcome float.
Variable fitz_open : list Byte.byte -> outcome (list fitz_page).
Variable decode_utf8 : list Byte.byte -> outcome string.
Variable getenv : string -> option string.
Variable AzureChatOpenAI : llm_settings -> nat -> list message -> outcome string.

Local Abbreviation run :=
  (main py_float fitz_open decode_utf8 getenv AzureChatOpenAI).
Local Abbreviation extract_all := (extract_loop fitz_open).
Local Abbreviation llm := (configured_llm getenv AzureChatOpenAI).

Lemma extract_loop_nonempty files d :
  files <> [] -> fst (extract_all files d) <> [].
Proof.
  destruct files as [|f files]; [congruence|]. intros _ E.
  assert (H : In (name f) (dict_keys (fst (extract_all (f :: files) d)))).
  { clear E. cbn [extract_loop].
    destruct (extract_text_from_pdf fitz_open f) as [text ev].
    assert (K : forall fs d0, In (name f) (dict_keys d0) ->
                  In (name f) (dict_keys (fst (extract_all fs d0)))).
    { induction fs as [|g fs IH]; intros d0 H0; cbn [extract_loop];
        [exact H0|].
      destruct (extract_text_from_pdf fitz_open g) as [tg eg].
      specialize (IH (dict_set d0 (name g) tg)).
      destruct (extract_all fs (dict_set d0 (name g) tg)).
      apply IH. apply keys_set_in. now right. }
    specialize (K files (dict_set d (name f) text)).
    destruct (extract_all files (dict_set d (name f) text)).
    apply K. apply keys_set_in. now left. }
  rewrite E in H. exact H.
Qed.

(** The value of [main] once both uploads are there, at most ten resumes
    were given and the job description could be read. *)
Lemma main_after_reading jd files jd_text :
  files <> [] -> List.length files <= 10 ->
  read_job_description decode_utf8 jd = Returns jd_text ->
  run (Some jd) files =
    let d := fst (extract_all files []) in
    let ev1 := snd (extract_all files []) in
    if required_settings_present getenv then
      let r := score_loop py_float llm jd_text d 0 (List.length d) [] in
      let shown := sorted_by_score_desc (fst r) in
      (ranked shown, ev1 ++ snd r ++ display_loop 1 shown)
    else
      (configuration_missing,
       ev1 ++ [st_error ("Azure OpenAI environment variables are not set. "
         ++ "Please set AZURE_OPENAI_API_KEY, AZURE_OPENAI_ENDPOINT, "
         ++ "and AZURE_OPENAI_DEPLOYMENT_NAME.")]).
Proof.
  intros Hne Hlen Hjd. unfold main.
  pose proof (extract_loop_nonempty files [] Hne) as Hd.
  destruct files as [|f files]; [congruence|].
  destruct (Nat.ltb_spec 10 (List.length (f :: files))) as [L|_]; [lia|].
  unfold read_job_description in Hjd. rewrite Hjd.
  destruct (extract_all (f :: files) []) as [d ev1]. cbn [fst snd] in *.
  destruct d as [|kv d]; [congruence|]. cbn [List.length Nat.eqb].
  fold (required_settings_present getenv).
  fold (configured_llm getenv AzureChatOpenAI).
  destruct (required_settings_present getenv); cbn [negb]; [|reflexivity].
  cbn zeta.
  destruct (score_loop py_float llm jd_text (kv :: d) 0 (S (List.length d)) [])
    as [scores ev2].
  reflexivity.
Qed.

(** Every other way through [main]. *)
Lemma main_early jd files :
  (jd = None \/ files = []) /\ run jd files = (not_started, []) \/
  (exists jd_file, jd = Some jd_file /\ files <> [] /\
     10 < List.length files /\
     run jd files =
       (too_many_resumes,
        [st_warning "Please upload no more than 10 resumes."])) \/
  (exists jd_file e, jd = Some jd_file /\ files <> [] /\
     List.length files <= 10 /\
     read_job_description decode_utf8 jd_file = Raises e /\
     run jd files =
       (job_description_unreadable,
        [st_error ("Could not read Job Description file: " ++ e)])) \/
  (exists jd_file jd_text, jd = Some jd_file /\ files <> [] /\
     List.length files <= 10 /\
     read_job_description decode_utf8 jd_file = Returns jd_text).
Proof.
  destruct jd as [jd_file|]; [|left; auto].
  destruct files as [|f files]; [left; auto|].
  right.
  assert (Hne : f :: files <> []) by congruence.
  unfold main.
  destruct (Nat.ltb_spec 10 (List.length (f :: files))) as [L|L].
  - left. exists jd_file. auto.
  - right. fold (read_job_description decode_utf8 jd_file).
    destruct (read_job_description decode_utf8 jd_file) as [jd_text|e] eqn:R.
    + right. exists jd_file, jd_text. auto.
    + left. exists jd_file, e. auto 6.
Qed.

End MainFacts.

(** * The scorer *)

Section ScorerProperties.
Import FloatOrder.

Variable py_float : string -> outcome float.

Local Abbreviation score := (score_resume py_float).

Lemma score_resume_parsed llm jd text n reply x :
  llm (messages_for jd text n) = Returns reply ->
  py_float (strip reply) = Returns x ->
  score llm jd text n =
    (py_max (PyInt 0) (py_min (PyInt 100) (PyFloat x)),
     [llm_call (messages_for jd text n)]).
Proof.
  intros L P. unfold score_resume, score_attempt, bind. now rewrite L, P.
Qed.

Lemma score_resume_failed llm jd text n e :
  llm (messages_for jd text n) = Raises e \/
  (exists reply, llm (messages_for jd text n) = Returns reply /\
                 py_float (strip reply) = Raises e) ->
  score llm jd text n =
    (PyInt (-1),
     [llm_call (messages_for jd text n);
      st_warning ("Could not score resume '" ++ n ++ "': " ++ e)]).
Proof.
  unfold score_resume, score_attempt, bind.
  intros [L|(reply & L & P)]; rewrite L; [reflexivity|].
  now rewrite P.
Qed.

(** C1. Whenever the model's reply, once trimmed, parses as a double [x],
    [score_resume] returns [max(0, min(100, x))] and shows no warning: the
    result lies between 0 and 100 inclusive; it equals [x] (under Python's
    [==]) when [x] is itself in that range, is the bound 0 when [x] is
    below 0 and the bound 100 when [x] is above 100.  A reply of 150 yields
    100, a reply of -20 yields 0 (both returned as the integer bound, which
    Python's [==] identifies with 100.0 and 0.0), and a reply of 73.5
    yields 73.5. *)
Theorem score_resume_clamps :
  (forall llm jd text n reply x,
     llm (messages_for jd text n) = Returns reply ->
     py_float (strip reply) = Returns x ->
     let r := fst (score llm jd text n) in
     snd (score llm jd text n) = [llm_call (messages_for jd text n)] /\
     py_le (PyInt 0) r = true /\ py_le r (PyInt 100) = true /\
     (PrimFloat.leb 0 x = true -> PrimFloat.leb x 100 = true ->
      py_eq r (PyFloat x) = true) /\
     (PrimFloat.ltb x 0 = true -> r = PyInt 0) /\
     (PrimFloat.ltb 100 x = true -> r = PyInt 100)) /\
  (forall llm jd text n,
     llm (messages_for jd text n) = Returns "150" ->
     py_float "150" = Returns 150%float ->
     fst (score llm jd text n) = PyInt 100 /\
     py_eq (fst (score llm jd text n)) (PyFloat 100) = true) /\
  (forall llm jd text n,
     llm (messages_for jd text n) = Returns "-20" ->
     py_float "-20" = Returns (-20)%float ->
     fst (score llm jd text n) = PyInt 0 /\
     py_eq (fst (score llm jd text n)) (PyFloat 0) = true) /\
  (forall llm jd text n,
     llm (messages_for jd text n) = Returns "73.5" ->
     py_float "73.5" = Returns 73.5%float ->
     fst (score llm jd text n) = PyFloat 73.5).
Proof.
  split; [|split; [|split]].
  - intros llm jd text n reply x L P.
    rewrite (score_resume_parsed _ _ _ _ _ _ L P). cbn [fst snd].
    split; [reflexivity|].
    destruct (clamp_cases x) as [(H0 & H1 & ->)|[(H0 & H1 & ->)|(H1 & ->)]].
    + (* strictly inside: the double itself *)
      cbn [py_le py_eq as_float].
      rewrite float_of_int_0, float_of_int_100, !leb_ltb_eqb, H0, H1.
      repeat split; try reflexivity.
      * intros _ _. apply eqb_refl. now apply ltb_not_nan in H0.
      * intros C. apply ltb_asym in C. congruence.
      * intros C. apply ltb_asym in C. congruence.
    + (* not above 0: the integer 0 *)
      repeat split; try reflexivity.
      * intros Z0 _. cbn [py_eq as_float]. rewrite float_of_int_0.
        rewrite leb_ltb_eqb, H0 in Z0. exact Z0.
      * intros C. apply ltb_asym in C. congruence.
    + (* not below 100: the integer 100 *)
      repeat split; try reflexivity.
      * intros _ Z1. cbn [py_eq as_float]. rewrite float_of_int_100.
        rewrite leb_ltb_eqb, H1 in Z1. now rewrite eqb_sym.
      * intros C. exfalso.
        assert (T : PrimFloat.ltb x 100 = true).
        { apply ltb_trans with (y := 0%float); [exact C|].
          vm_compute. reflexivity. }
        congruence.
  - intros llm jd text n L P.
    rewrite (score_resume_parsed _ _ _ _ "150" _ L P).
    vm_compute. auto.
  - intros llm jd text n L P.
    rewrite (score_resume_parsed _ _ _ _ "-20" _ L P).
    vm_compute. auto.
  - intros llm jd text n L P.
    rewrite (score_resume_parsed _ _ _ _ "73.5" _ L P).
    vm_compute. auto.
Qed.

(** C2. When the call to the model raises, or its trimmed reply does not
    parse as a number (as for N/A and Great fit!), [score_resume] returns
    the sentinel -1 and shows one warning, which carries the name of the
    resume and the message of the error.  The function returns a value in
    both cases: the exception does not leave it. *)
Theorem score_resume_sentinel :
  (forall llm jd text n e,
     llm (messages_for jd text n) = Raises e ->
     score llm jd text n =
       (PyInt (-1),
        [llm_call (messages_for jd text n);
         st_warning ("Could not score resume '" ++ n ++ "': " ++ e)])) /\
  (forall llm jd text n reply e,
     llm (messages_for jd text n) = Returns reply ->
     py_float (strip reply) = Raises e ->
     score llm jd text n =
       (PyInt (-1),
        [llm_call (messages_for jd text n);
         st_warning ("Could not score resume '" ++ n ++ "': " ++ e)])) /\
  (forall llm jd text n reply e,
     reply = "N/A" \/ reply = "Great fit!" ->
     llm (messages_for jd text n) = Returns reply ->
     py_float reply = Raises e ->
     fst (score llm jd text n) = PyInt (-1) /\
     is_sentinel (fst (score llm jd text n)) = true).
Proof.
  split; [|split].
  - intros llm jd text n e L. apply score_resume_failed. now left.
  - intros llm jd text n reply e L P. apply score_resume_failed.
    right. now exists reply.
  - intros llm jd text n reply e R L P.
    rewrite (score_resume_failed llm jd text n e).
    + split; reflexivity.
    + right. exists reply. split; [exact L|].
      destruct R as [-> | ->]; exact P.
Qed.

End ScorerProperties.

(** * The extractor *)

Section ExtractorFacts.

Variable fitz_open : list Byte.byte -> outcome (list fitz_page).

Local Abbreviation extract := (extract_text_from_pdf fitz_open).

Lemma append_nil_r (s : string) : (s ++ "")%string = s.
Proof. induction s as [|c s IH]; cbn; [reflexivity|now rewrite IH]. Qed.

Lemma append_assoc (s t u : string) :
  ((s ++ t) ++ u)%string = (s ++ t ++ u)%string.
Proof. induction s as [|c s IH]; cbn; [reflexivity|now rewrite IH]. Qed.

Lemma concat_cons (t : string) (ts : list string) :
  String.concat "" (t :: ts) = (t ++ String.concat "" ts)%string.
Proof.
  destruct ts as [|t' ts]; cbn; [now rewrite append_nil_r|reflexivity].
Qed.

Lemma page_loop_texts doc : forall texts acc,
  map get_text doc = map Returns texts ->
  page_loop doc acc = Returns (acc ++ String.concat "" texts)%string.
Proof.
  induction doc as [|p doc IH]; intros [|t texts] acc H; try discriminate.
  - cbn. now rewrite append_nil_r.
  - cbn [map] in H. injection H as Hp Hr.
    cbn [page_loop]. rewrite Hp. cbn [bind].
    rewrite (IH texts), concat_cons, append_assoc by exact Hr. reflexivity.
Qed.

Lemma page_loop_total doc : forall acc,
  (exists texts, map get_text doc = map Returns texts) \/
  (exists e, page_loop doc acc = Raises e).
Proof.
  induction doc as [|p doc IH]; intros acc.
  - left. now exists [].
  - cbn [page_loop]. destruct (get_text p) as [t|e] eqn:G; cbn [bind].
    + destruct (IH (acc ++ t)%string) as [[texts H]|[e H]].
      * left. exists (t :: texts). cbn. now rewrite G, H.
      * right. now exists e.
    + right. now exists e.
Qed.

Lemma extract_well_formed file texts :
  well_formed_pdf fitz_open file texts ->
  extract file = (String.concat "" texts, [pdf_read (name file)]).
Proof.
  intros (data & doc & R & O & T).
  unfold extract_text_from_pdf, extract_attempt. rewrite R. cbn [bind].
  rewrite O. cbn [bind]. now rewrite (page_loop_texts doc texts).
Qed.

Lemma extract_malformed file :
  (forall texts, ~ well_formed_pdf fitz_open file texts) ->
  exists e,
    extract file =
      ("", [pdf_read (name file); st_error ("Error reading PDF file: " ++ e)]).
Proof.
  intros M. unfold extract_text_from_pdf, extract_attempt.
  destruct (read file) as [data|e] eqn:R; cbn [bind]; [|now exists e].
  destruct (fitz_open data) as [doc|e] eqn:O; cbn [bind]; [|now exists e].
  destruct (page_loop_total doc "") as [[texts T]|[e P]].
  - exfalso. apply (M texts). now exists data, doc.
  - rewrite P. now exists e.
Qed.

End ExtractorFacts.

(** * The pipeline *)

Section PipelineProperties.
Import DictFacts ScoreOrder.

Variable py_float : string -> outcome float.
Variable fitz_open : list Byte.byte -> outcome (list fitz_page).
Variable decode_utf8 : list Byte.byte -> outcome string.
Variable getenv : string -> option string.
Variable AzureChatOpenAI : llm_settings -> nat -> list message -> outcome string.

Local Abbreviation run :=
  (main py_float fitz_open decode_utf8 getenv AzureChatOpenAI).
Local Abbreviation extract := (extract_text_from_pdf fitz_open).
Local Abbreviation extract_all := (extract_loop fitz_open).
Local Abbreviation llm := (configured_llm getenv AzureChatOpenAI).
Local Abbreviation possible :=
  (fun e : score_entry => possible_score (entry_score e) = true).

(** What is known of a run that ends with a ranking. *)
Lemma main_ranked_inv jd files shown trace :
  run jd files = (ranked shown, trace) ->
  exists jd_file jd_text,
    jd = Some jd_file /\ files <> [] /\ List.length files <= 10 /\
    read_job_description decode_utf8 jd_file = Returns jd_text /\
    required_settings_present getenv = true /\
    let d := fst (extract_all files []) in
    let r := score_loop py_float llm jd_text d 0 (List.length d) [] in
    shown = sorted_by_score_desc (fst r) /\
    trace = snd (extract_all files []) ++ snd r ++ display_loop 1 shown.
Proof.
  intros H.
  destruct (main_early py_float fitz_open decode_utf8 getenv AzureChatOpenAI
              jd files)
    as [[_ E]|[(j & _ & _ & _ & E)|[(j & e & _ & _ & _ & _ & E)
       |(j & t & -> & Hne & Hlen & R)]]];
    try (rewrite E in H; discriminate).
  rewrite (main_after_reading _ _ _ _ _ _ _ t Hne Hlen R) in H.
  cbn zeta in H.
  destruct (required_settings_present getenv); [|discriminate].
  injection H as <- <-. exists j, t. cbn zeta. auto 10.
Qed.

Lemma strongly_sorted_suffix {A} (R : A -> A -> Prop) l1 l2 :
  StronglySorted R (l1 ++ l2) -> StronglySorted R l2.
Proof.
  induction l1 as [|x l1 IH]; cbn; [auto|].
  intros H. apply StronglySorted_inv in H. tauto.
Qed.

Lemma score_lt_asym a b :
  possible a -> possible b -> score_lt a b = true -> score_lt b a = false.
Proof. unfold score_lt. apply py_lt_asym. Qed.

Lemma score_lt_cotrans a b c :
  possible a -> possible b -> possible c ->
  score_lt a b = true -> score_lt a c = true \/ score_lt c b = true.
Proof. unfold score_lt. apply py_lt_cotrans. Qed.

Lemma same_score_key v a :
  possible_score v = true -> possible a ->
  py_eq (entry_score a) v
  = same_key score_lt {| entry_name := ""; entry_score := v |} a.
Proof.
  intros Hv Ha. unfold same_key, score_lt. cbn [entry_score].
  rewrite py_eq_incomparable by assumption. apply andb_comm.
Qed.

(** C3. The presenter orders the collected results by score, highest
    first: the displayed list is a rearrangement of the collected one, no
    entry is followed by one with a strictly greater score, nothing but
    failed entries follows a failed entry (the sentinel -1 ranks below every
    valid score), and entries with equal scores keep the order in which they
    were collected.  The collected results of a run are always of the kind
    this is stated for.  For A:80, B:-1, C:95, D:80 collected in that order
    the displayed order is C, A, D, B. *)
Theorem ranking_stable_descending :
  (forall scores, Forall possible scores ->
     let shown := sorted_by_score_desc scores in
     Permutation shown scores /\
     StronglySorted
       (fun a b => py_lt (entry_score a) (entry_score b) = false) shown /\
     (forall pre a post,
        shown = pre ++ a :: post -> is_sentinel (entry_score a) = true ->
        Forall (fun b => is_sentinel (entry_score b) = true) post) /\
     (forall v, possible_score v = true ->
        filter (fun e => py_eq (entry_score e) v) shown
        = filter (fun e => py_eq (entry_score e) v) scores)) /\
  (forall jd files shown trace,
     run jd files = (ranked shown, trace) ->
     exists scores before,
       Forall possible scores /\ shown = sorted_by_score_desc scores /\
       trace = before ++ display_loop 1 shown) /\
  map entry_name (sorted_by_score_desc abcd) = ["C"; "A"; "D"; "B"].
Proof.
  split; [|split].
  - intros scores D shown.
    assert (P : Permutation shown scores) by apply sorted_reverse_perm.
    assert (S : descending score_lt shown).
    { apply (sorted_reverse_descending score_lt _ score_lt_asym score_lt_cotrans).
      exact D. }
    assert (D' : Forall possible shown).
    { apply (forall_perm _ scores); [now symmetry|exact D]. }
    repeat split; [exact P|exact S| |].
    + intros pre a post E Sa. rewrite E in S, D'.
      apply strongly_sorted_suffix in S. apply StronglySorted_inv in S.
      destruct S as [_ S]. apply Forall_app in D'. destruct D' as [_ D'].
      inversion D' as [|? ? Da Dp]; subst.
      apply sentinel_is_minus_one in Sa; [|exact Da].
      rewrite Forall_forall in S, Dp |- *. intros b Hb.
      destruct (is_sentinel (entry_score b)) eqn:Sb; [reflexivity|].
      destruct (sentinel_least _ (Dp b Hb)) as [_ L].
      specialize (S b Hb). unfold score_lt in S. rewrite Sa, L in S; auto.
    + intros v Hv.
      rewrite (filter_ext_in _
                 (same_key score_lt {| entry_name := ""; entry_score := v |})
                 shown).
      2:{ rewrite Forall_forall in D'. intros a Ha.
          apply same_score_key; auto. }
      rewrite (filter_ext_in (fun e => py_eq (entry_score e) v)
                 (same_key score_lt {| entry_name := ""; entry_score := v |})
                 scores).
      2:{ rewrite Forall_forall in D. intros a Ha.
          apply same_score_key; auto. }
      apply (sorted_reverse_stable score_lt _ score_lt_asym score_lt_cotrans);
        assumption.
  - intros jd files shown trace H.
    apply main_ranked_inv in H.
    destruct H as (j & t & _ & _ & _ & _ & _ & H). cbn zeta in H.
    destruct H as [E T].
    destruct (score_loop_entries py_float llm t (fst (extract_all files []))
                0 (List.length (fst (extract_all files []))) [])
      as (new & En & _ & F).
    cbn [app] in En.
    exists new, (snd (extract_all files [])
                 ++ snd (score_loop py_float llm t (fst (extract_all files [])) 0
                           (List.length (fst (extract_all files []))) [])).
    rewrite <- En. repeat split; [now rewrite En|exact E|].
    rewrite T, <- app_assoc. reflexivity.
  - vm_compute. reflexivity.
Qed.

Lemma possible_range s :
  possible_score s = true ->
  s = PyInt (-1) \/ (py_le (PyInt 0) s = true /\ py_le s (PyInt 100) = true).
Proof.
  destruct s as [z|x]; cbn [possible_score]; intros H.
  - split_int z H; [left; reflexivity|right; split; reflexivity..].
  - right. apply andb_true_iff in H. destruct H as [H0 H1].
    cbn [py_le as_float].
    rewrite float_of_int_0, float_of_int_100, !FloatOrder.leb_ltb_eqb, H0, H1.
    split; reflexivity.
Qed.

Lemma absent_setting :
  getenv "AZURE_OPENAI_API_KEY" = None \/
  getenv "AZURE_OPENAI_ENDPOINT" = None \/
  getenv "AZURE_OPENAI_DEPLOYMENT_NAME" = None ->
  required_settings_present getenv = false.
Proof.
  unfold required_settings_present. cbn [forallb].
  intros [H|[H|H]]; rewrite H; cbn [truthy andb];
    repeat (rewrite ?andb_false_r, ?andb_false_l); reflexivity.
Qed.

(** The names in the ranking are the keys of [resumes_texts]. *)
Lemma ranked_names jd files shown trace :
  run jd files = (ranked shown, trace) ->
  Permutation (map entry_name shown) (dict_keys (fst (extract_all files []))) /\
  Forall possible shown.
Proof.
  intros H. apply main_ranked_inv in H.
  destruct H as (j & t & _ & _ & _ & _ & _ & H). cbn zeta in H.
  destruct H as [E _].
  destruct (score_loop_entries py_float llm t (fst (extract_all files []))
              0 (List.length (fst (extract_all files []))) [])
    as (new & En & M & F).
  cbn [app] in En. rewrite En in E.
  assert (P : Permutation shown new).
  { rewrite E. apply sorted_reverse_perm. }
  split.
  - unfold dict_keys. rewrite <- M. now apply Permutation_map.
  - apply (forall_perm _ new); [now symmetry|exact F].
Qed.

(** C4 (as amended). If any one of the three required settings is absent,
    no call to the model is made and no ranking is produced.  When the run
    gets as far as the settings (both uploads present, at most ten resumes,
    a readable job description) it stops there with the fatal error shown
    to the user; by then every uploaded PDF has been extracted. *)
Theorem config_missing_stops_before_scoring :
  getenv "AZURE_OPENAI_API_KEY" = None \/
  getenv "AZURE_OPENAI_ENDPOINT" = None \/
  getenv "AZURE_OPENAI_DEPLOYMENT_NAME" = None ->
  forall jd files,
    Forall (fun e => is_llm_call e = false) (snd (run jd files)) /\
    (forall shown, fst (run jd files) <> ranked shown) /\
    (forall jd_file jd_text,
       jd = Some jd_file -> files <> [] -> List.length files <= 10 ->
       read_job_description decode_utf8 jd_file = Returns jd_text ->
       run jd files =
         (configuration_missing,
          snd (extract_all files [])
          ++ [st_error ("Azure OpenAI environment variables are not set. "
                ++ "Please set AZURE_OPENAI_API_KEY, AZURE_OPENAI_ENDPOINT, "
                ++ "and AZURE_OPENAI_DEPLOYMENT_NAME.")]) /\
       forall f, In f files -> In (pdf_read (name f)) (snd (run jd files))).
Proof.
  intros A jd files. apply absent_setting in A.
  assert (G : forall j t, jd = Some j -> files <> [] ->
            List.length files <= 10 ->
            read_job_description decode_utf8 j = Returns t ->
            run jd files =
              (configuration_missing,
               snd (extract_all files [])
               ++ [st_error ("Azure OpenAI environment variables are not set. "
                     ++ "Please set AZURE_OPENAI_API_KEY, AZURE_OPENAI_ENDPOINT, "
                     ++ "and AZURE_OPENAI_DEPLOYMENT_NAME.")])).
  { intros j t -> Hne Hlen R.
    rewrite (main_after_reading _ _ _ _ _ _ _ t Hne Hlen R).
    cbn zeta. now rewrite A. }
  destruct (extract_loop_trace fitz_open files []) as (T1 & T2 & _).
  cbn zeta in T1, T2.
  assert (T : Forall (fun e => is_llm_call e = false) (snd (run jd files)) /\
              forall shown, fst (run jd files) <> ranked shown).
  { destruct (main_early py_float fitz_open decode_utf8 getenv AzureChatOpenAI
                jd files)
      as [[_ E]|[(j & _ & _ & _ & E)|[(j & e & _ & _ & _ & _ & E)
         |(j & t & Ej & Hne & Hlen & R)]]];
      try (rewrite E; cbn; split; [repeat constructor|discriminate]).
    rewrite (G j t Ej Hne Hlen R). cbn [fst snd].
    split; [|discriminate].
    apply Forall_app. split; [exact T1|repeat constructor]. }
  destruct T as [Tc Tr]. split; [exact Tc|split; [exact Tr|]].
  intros j t Ej Hne Hlen R. split; [now apply (G j t)|].
  rewrite (G j t Ej Hne Hlen R). cbn [snd].
  intros f Hf. apply in_or_app. left. now apply T2.
Qed.

(** C5 (as amended). A run that reaches scoring produces exactly one result
    per distinct file name: the names in the results are pairwise distinct
    and are exactly the names of the uploaded files, so the number of
    results is the number of distinct names, which is the number of files
    when no two files share a name. *)
Theorem one_result_per_distinct_name jd files shown trace :
  main py_float fitz_open decode_utf8 getenv AzureChatOpenAI jd files
  = (ranked shown, trace) ->
  NoDup (map entry_name shown) /\
  (forall k, In k (map entry_name shown) <-> In k (map name files)) /\
  List.length shown = List.length (nodup string_dec (map name files)) /\
  (NoDup (map name files) -> List.length shown = List.length files).
Proof.
  intros H. apply ranked_names in H. destruct H as [P _].
  destruct (extract_loop_keys fitz_open files []) as [N I]; [constructor|].
  assert (In' : forall k, In k (map entry_name shown) <-> In k (map name files)).
  { intros k. split; intros Hk.
    - apply (Permutation_in _ P), I in Hk. destruct Hk as [[]|Hk]. exact Hk.
    - apply (Permutation_in _ (Permutation_sym P)), I. now right. }
  assert (Nd : NoDup (map entry_name shown)).
  { apply (Permutation_NoDup (l := dict_keys (fst (extract_all files []))));
      [now symmetry|exact N]. }
  assert (L : List.length shown
              = List.length (nodup string_dec (map name files))).
  { rewrite <- (length_map entry_name shown).
    apply nodup_same_length; [exact Nd|apply NoDup_nodup|].
    intros k. rewrite nodup_In. apply In'. }
  split; [exact Nd|split; [exact In'|split; [exact L|]]].
  intros Hn. rewrite L, (nodup_fixed_point string_dec Hn). apply length_map.
Qed.

(** C6. With more than ten resume files the run does no work: no file is
    extracted, no call to the model is made and no ranking is produced.
    With a job description uploaded, the only thing the run shows is the
    message asking for no more than ten resumes. *)
Theorem too_many_resumes_rejected jd files :
  10 < List.length files ->
  no_work (snd (run jd files)) /\
  (forall shown, fst (run jd files) <> ranked shown) /\
  (forall jd_file, jd = Some jd_file ->
     run jd files =
       (too_many_resumes,
        [st_warning "Please upload no more than 10 resumes."])).
Proof.
  intros L.
  destruct (main_early py_float fitz_open decode_utf8 getenv AzureChatOpenAI
              jd files)
    as [[[Hj|Hf] E]|[(j & Hj & _ & _ & E)|[(j & e & _ & _ & C & _)
       |(j & t & _ & _ & C & _)]]]; try lia; subst.
  - rewrite E. cbn. split; [constructor|split; discriminate].
  - cbn in L. lia.
  - rewrite E. cbn. unfold no_work.
    split; [repeat constructor|split; [discriminate|reflexivity]].
Qed.

(** C9. If reading or decoding the job description raises, the run does no
    work: no resume is extracted, no call to the model is made, no ranking
    is produced.  With one to ten resumes uploaded the only thing the run
    shows is the error that the job description could not be read. *)
Theorem unreadable_job_description_aborts jd_file files e :
  read_job_description decode_utf8 jd_file = Raises e ->
  no_work (snd (run (Some jd_file) files)) /\
  (forall shown, fst (run (Some jd_file) files) <> ranked shown) /\
  (files <> [] -> List.length files <= 10 ->
   run (Some jd_file) files =
     (job_description_unreadable,
      [st_error ("Could not read Job Description file: " ++ e)])).
Proof.
  intros R. unfold no_work.
  destruct (main_early py_float fitz_open decode_utf8 getenv AzureChatOpenAI
              (Some jd_file) files)
    as [[[Hj|Hf] E]|[(j & Hj & Hne & Hl & E)|[(j & e' & Hj & Hne & Hl & R' & E)
       |(j & t & Hj & _ & _ & R')]]].
  - discriminate.
  - rewrite E. cbn. split; [constructor|split; [discriminate|]].
    intros Hne. congruence.
  - rewrite E. cbn. split; [repeat constructor|split; [discriminate|]].
    intros _ C. lia.
  - injection Hj as <-. rewrite R in R'. injection R' as <-.
    rewrite E. cbn. split; [repeat constructor|split; [discriminate|]].
    reflexivity.
  - injection Hj as <-. congruence.
Qed.

(** C10. The branch that reports that no resume text is available is never
    taken.  Whenever at least one resume file is uploaded, every uploaded
    file has its name among the keys of [resumes_texts], which is therefore
    not empty; and with no resume file uploaded the run does not start. *)
Theorem no_texts_branch_unreachable :
  (forall jd files, fst (run jd files) <> no_resume_texts) /\
  (forall files,
     files <> [] ->
     fst (extract_all files []) <> [] /\
     forall f, In f files ->
       In (name f) (dict_keys (fst (extract_all files [])))).
Proof.
  split.
  - intros jd files.
    destruct (main_early py_float fitz_open decode_utf8 getenv AzureChatOpenAI
                jd files)
      as [[_ E]|[(j & _ & _ & _ & E)|[(j & e & _ & _ & _ & _ & E)
         |(j & t & -> & Hne & Hlen & R)]]];
      try (rewrite E; discriminate).
    rewrite (main_after_reading _ _ _ _ _ _ _ t Hne Hlen R). cbn zeta.
    destruct (required_settings_present getenv); discriminate.
  - intros files Hne. split; [now apply extract_loop_nonempty|].
    intros f Hf.
    destruct (extract_loop_keys fitz_open files []) as [_ K]; [constructor|].
    apply K. right. now apply in_map.
Qed.

End PipelineProperties.

(** * The statements at concrete inputs *)

Local Abbreviation sample_run :=
  (main sample_float sample_fitz_open sample_decode sample_getenv sample_llm).

Local Abbreviation sample_settings :=
  {| azure_deployment := None; azure_endpoint := None;
     openai_api_key := None; openai_api_version := "2023-05-15";
     temperature := 0%Z; max_tokens := 100%Z |}.

(** A reply of 73.5 surrounded by blanks is scored 73.5; the first part of
    [score_resume_clamps] applies with the sample reader. *)
Lemma score_resume_clamps_witness :
  sample_float (strip " 73.5 ") = Returns 73.5%float /\
  py_eq (fst (score_resume sample_float (sample_llm sample_settings 0)
                "job" "text" "a.pdf"))
        (PyFloat 73.5) = true.
Proof.
  split; [vm_compute; reflexivity|].
  apply (proj1 (score_resume_clamps sample_float)
           (sample_llm sample_settings 0) "job" "text" "a.pdf" " 73.5 "
           73.5%float);
    vm_compute; reflexivity.
Defined.

(** The sample reader refuses the reply of the second call, and the third
    call raises: both give the sentinel. *)
Lemma score_resume_sentinel_witness :
  sample_float (strip "Great fit!")
  = Raises "could not convert string to float: 'Great fit!'" /\
  score_resume sample_float (sample_llm sample_settings 1) "job" "text" "a.pdf"
  = (PyInt (-1),
     [llm_call (messages_for "job" "text" "a.pdf");
      st_warning ("Could not score resume 'a.pdf': "
                  ++ "could not convert string to float: 'Great fit!'")]) /\
  fst (score_resume sample_float (sample_llm sample_settings 2)
         "job" "text" "a.pdf") = PyInt (-1).
Proof.
  split; [vm_compute; reflexivity|split].
  - apply (proj1 (proj2 (score_resume_sentinel sample_float))
             (sample_llm sample_settings 1) "job" "text" "a.pdf" "Great fit!");
      vm_compute; reflexivity.
  - rewrite (proj1 (score_resume_sentinel sample_float)
               (sample_llm sample_settings 2) "job" "text" "a.pdf"
               "Connection error." eq_refl).
    reflexivity.
Defined.

Lemma ranking_stable_descending_witness :
  Forall (fun e => possible_score (entry_score e) = true) abcd /\
  filter (fun e => py_eq (entry_score e) (PyFloat 80))
         (sorted_by_score_desc abcd)
  = filter (fun e => py_eq (entry_score e) (PyFloat 80)) abcd.
Proof.
  assert (D : Forall (fun e => possible_score (entry_score e) = true) abcd).
  { repeat constructor. }
  split; [exact D|].
  apply (proj1 (ranking_stable_descending sample_float sample_fitz_open
                  sample_decode sample_getenv sample_llm) abcd D).
  vm_compute. reflexivity.
Defined.

(** C4, the claim as stated fails: without the API key and with one resume,
    the run stops at the settings, but it has extracted the resume by
    then. *)
Lemma config_missing_after_extraction :
  sample_getenv_no_key "AZURE_OPENAI_API_KEY" = None /\
  main sample_float sample_fitz_open sample_decode sample_getenv_no_key
       sample_llm (Some sample_jd) [cv_a]
  = (configuration_missing,
     [pdf_read "a.pdf";
      st_error ("Azure OpenAI environment variables are not set. "
        ++ "Please set AZURE_OPENAI_API_KEY, AZURE_OPENAI_ENDPOINT, "
        ++ "and AZURE_OPENAI_DEPLOYMENT_NAME.")]) /\
  ~ no_work (snd (main sample_float sample_fitz_open sample_decode
                    sample_getenv_no_key sample_llm (Some sample_jd) [cv_a])).
Proof.
  split; [reflexivity|split; [vm_compute; reflexivity|]].
  intros W. vm_compute in W. inversion W as [|? ? [R _] _]. discriminate R.
Qed.

Lemma config_missing_witness :
  sample_getenv_no_key "AZURE_OPENAI_API_KEY" = None /\
  In (pdf_read "blank.pdf")
     (snd (main sample_float sample_fitz_open sample_decode
             sample_getenv_no_key sample_llm (Some sample_jd)
             [cv_a; cv_blank])) /\
  Forall (fun e => is_llm_call e = false)
     (snd (main sample_float sample_fitz_open sample_decode
             sample_getenv_no_key sample_llm (Some sample_jd)
             [cv_a; cv_blank])).
Proof.
  split; [reflexivity|].
  destruct (config_missing_stops_before_scoring sample_float sample_fitz_open
              sample_decode sample_getenv_no_key sample_llm
              (or_introl eq_refl) (Some sample_jd) [cv_a; cv_blank])
    as (C & _ & H).
  split; [|exact C].
  destruct (H sample_jd "Looking for a Python backend engineer") as [_ R];
    [reflexivity|discriminate|cbn; lia|vm_compute; reflexivity|].
  apply (R cv_blank). right. left. reflexivity.
Defined.

(** C5, the claim as stated fails: two uploaded files with the same name
    give one result. *)
Lemma same_name_files_share_one_result :
  exists shown,
    fst (sample_run (Some sample_jd) [cv_a; cv_a_again]) = ranked shown /\
    List.length shown = 1 /\
    List.length [cv_a; cv_a_again] = 2.
Proof.
  exists [{| entry_name := "a.pdf"; entry_score := PyFloat 73.5 |}].
  split; [vm_compute; reflexivity|split; reflexivity].
Qed.

Lemma one_result_per_distinct_name_witness :
  List.length
    [ {| entry_name := "blank.pdf"; entry_score := PyFloat 73.5 |};
      {| entry_name := "a.pdf"; entry_score := PyInt (-1) |};
      {| entry_name := "broken.pdf"; entry_score := PyInt (-1) |} ]
  = List.length
      (nodup string_dec
         (map name [cv_blank; cv_a; cv_broken; cv_a_again])).
Proof.
  refine (proj1 (proj2 (proj2
           (one_result_per_distinct_name sample_float sample_fitz_open
              sample_decode sample_getenv sample_llm (Some sample_jd)
              [cv_blank; cv_a; cv_broken; cv_a_again] _
              (snd (sample_run (Some sample_jd)
                      [cv_blank; cv_a; cv_broken; cv_a_again])) _)))).
  vm_compute. reflexivity.
Defined.

Lemma too_many_resumes_rejected_witness :
  10 < List.length (repeat cv_a 11) /\
  sample_run (Some sample_jd) (repeat cv_a 11)
  = (too_many_resumes, [st_warning "Please upload no more than 10 resumes."]).
Proof.
  assert (L : 10 < List.length (repeat cv_a 11)) by (cbn; lia).
  split; [exact L|].
  apply (proj2 (proj2 (too_many_resumes_rejected sample_float sample_fitz_open
           sample_decode sample_getenv sample_llm (Some sample_jd)
           (repeat cv_a 11) L)) sample_jd eq_refl).
Defined.

Lemma unreadable_job_description_witness :
  read_job_description sample_decode jd_unreadable
  = Raises "I/O operation on closed file." /\
  sample_run (Some jd_unreadable) [cv_a]
  = (job_description_unreadable,
     [st_error ("Could not read Job Description file: "
                ++ "I/O operation on closed file.")]).
Proof.
  split; [reflexivity|].
  apply (proj2 (proj2 (unreadable_job_description_aborts sample_float
           sample_fitz_open sample_decode sample_getenv sample_llm
           jd_unreadable [cv_a] "I/O operation on closed file." eq_refl)));
    [discriminate|cbn; lia].
Defined.

Lemma no_texts_branch_unreachable_witness :
  fst (extract_loop sample_fitz_open [cv_broken] []) <> [] /\
  fst (sample_run (Some sample_jd) [cv_broken]) <> no_resume_texts.
Proof.
  split.
  - apply (proj2 (no_texts_branch_unreachable sample_float sample_fitz_open
                    sample_decode sample_getenv sample_llm) [cv_broken]).
    discriminate.
  - apply (proj1 (no_texts_branch_unreachable sample_float sample_fitz_open
                    sample_decode sample_getenv sample_llm)).
Defined.

(** * Further properties of the ranking *)

Section SortedInput.
Context {A : Type} (lt : A -> A -> bool).

Lemma insert_right_last x l :
  Forall (fun y => lt x y = false) l -> insert_right lt x l = l ++ [x].
Proof.
  induction 1 as [|y l Hy _ IH]; cbn; [reflexivity|].
  now rewrite Hy, IH.
Qed.

Lemma sort_ascending_keeps l :
  ascending lt l -> forall acc,
  Forall (fun x => Forall (fun y => lt x y = false) acc) l ->
  fold_left (fun acc x => insert_right lt x acc) l acc = acc ++ l.
Proof.
  induction 1 as [|x l Hs IH Hx]; intros acc H; cbn.
  - now rewrite app_nil_r.
  - inversion H as [|? ? Hacc Hl]; subst.
    rewrite insert_right_last by exact Hacc.
    rewrite IH, <- app_assoc; [reflexivity|].
    rewrite Forall_forall in Hl, Hx |- *. intros z Hz.
    apply Forall_app. split; [now apply Hl|].
    constructor; [now apply Hx|constructor].
Qed.

Lemma descending_rev l : descending lt l -> ascending lt (rev l).
Proof.
  induction 1 as [|y l Hs IH Hy]; cbn; [constructor|].
  apply strongly_sorted_snoc; [exact IH|].
  apply Forall_rev. exact Hy.
Qed.

Lemma sorted_reverse_keeps l : descending lt l -> sorted_reverse lt l = l.
Proof.
  intros D. unfold sorted_reverse, sort_ascending.
  rewrite sort_ascending_keeps.
  - cbn. apply rev_involutive.
  - now apply descending_rev.
  - rewrite Forall_forall. intros; constructor.
Qed.

End SortedInput.

Section RankingExtras.
Import ScoreOrder.

(** X1. A list of results a run can collect that is already in descending
    order of score is displayed as it is, and ranking the ranking of a
    run's results again changes nothing. *)
Theorem sorted_keeps_descending_input :
  (forall scores,
     Forall (fun e => possible_score (entry_score e) = true) scores ->
     StronglySorted
       (fun a b => py_lt (entry_score a) (entry_score b) = false) scores ->
     sorted_by_score_desc scores = scores) /\
  (forall scores,
     Forall (fun e => possible_score (entry_score e) = true) scores ->
     sorted_by_score_desc (sorted_by_score_desc scores)
     = sorted_by_score_desc scores).
Proof.
  split.
  - intros scores _ D. now apply sorted_reverse_keeps.
  - intros scores P. apply sorted_reverse_keeps.
    apply (sorted_reverse_descending score_lt
             (fun e => possible_score (entry_score e) = true)).
    + intros a b. unfold score_lt. apply py_lt_asym.
    + intros a b c. unfold score_lt. apply py_lt_cotrans.
    + exact P.
Qed.

End RankingExtras.

(** * Further properties of the scorer *)

Module FloatOrderMixed.
Import FloatOrder.

Lemma SFltb_leb_trans x y z :
  SFltb x y = true -> SFleb y z = true -> SFltb x z = true.
Proof. unfold SFltb, SFleb. sf_split x; sf_split y; sf_split z; sf_finish. Qed.

Lemma SFleb_ltb_trans x y z :
  SFleb x y = true -> SFltb y z = true -> SFltb x z = true.
Proof. unfold SFltb, SFleb. sf_split x; sf_split y; sf_split z; sf_finish. Qed.

Lemma ltb_leb_trans x y z :
  PrimFloat.ltb x y = true -> PrimFloat.leb y z = true ->
  PrimFloat.ltb x z = true.
Proof. rewrite !ltb_spec, leb_spec. apply SFltb_leb_trans. Qed.

Lemma leb_ltb_trans x y z :
  PrimFloat.leb x y = true -> PrimFloat.ltb y z = true ->
  PrimFloat.ltb x z = true.
Proof. rewrite !ltb_spec, leb_spec. apply SFleb_ltb_trans. Qed.

End FloatOrderMixed.

Section ScorerExtras.
Import FloatOrder FloatOrderMixed.

Variable py_float : string -> outcome float.

Lemma clamp_monotone x y :
  PrimFloat.leb x y = true ->
  py_le (py_max (PyInt 0) (py_min (PyInt 100) (PyFloat x)))
        (py_max (PyInt 0) (py_min (PyInt 100) (PyFloat y))) = true.
Proof.
  intros L.
  destruct (clamp_cases x) as [(X0 & X1 & ->)|[(X0 & X1 & ->)|(X1 & ->)]];
  destruct (clamp_cases y) as [(Y0 & Y1 & ->)|[(Y0 & Y1 & ->)|(Y1 & ->)]];
    cbn [py_le as_float];
    rewrite ?float_of_int_0, ?float_of_int_100; try reflexivity.
  - exact L.
  - rewrite (ltb_leb_trans _ _ _ X0 L) in Y0. discriminate.
  - rewrite leb_ltb_eqb, X1. reflexivity.
  - rewrite leb_ltb_eqb, Y0. reflexivity.
  - rewrite (leb_ltb_trans _ _ _ L Y1) in X1. discriminate.
  - rewrite (leb_ltb_trans _ _ _ L Y1) in X1. discriminate.
Qed.

(** X2. A reply that parses as not-a-number is not rejected: it is scored
    100, without any warning. *)
Theorem nan_reply_scores_100 llm jd text n reply x :
  llm (messages_for jd text n) = Returns reply ->
  py_float (strip reply) = Returns x ->
  is_nan x = true ->
  score_resume py_float llm jd text n
  = (PyInt 100, [llm_call (messages_for jd text n)]).
Proof.
  intros L P N. rewrite (score_resume_parsed _ _ _ _ _ _ _ L P).
  assert (H : PrimFloat.ltb x 100 = false) by now apply ltb_nan_l.
  destruct (clamp_cases x) as [(_ & X1 & _)|[(_ & X1 & _)|(_ & ->)]];
    [congruence|congruence|reflexivity].
Qed.

(** X3. Scoring is monotone in the model's reply: if one reply parses to a
    number that is at most the number another reply parses to, the first
    score is at most the second. *)
Theorem score_resume_monotone llm1 llm2 jd1 jd2 t1 t2 n1 n2 r1 r2 x y :
  llm1 (messages_for jd1 t1 n1) = Returns r1 ->
  py_float (strip r1) = Returns x ->
  llm2 (messages_for jd2 t2 n2) = Returns r2 ->
  py_float (strip r2) = Returns y ->
  PrimFloat.leb x y = true ->
  py_le (fst (score_resume py_float llm1 jd1 t1 n1))
        (fst (score_resume py_float llm2 jd2 t2 n2)) = true.
Proof.
  intros L1 P1 L2 P2 L.
  rewrite (score_resume_parsed _ _ _ _ _ _ _ L1 P1).
  rewrite (score_resume_parsed _ _ _ _ _ _ _ L2 P2).
  now apply clamp_monotone.
Qed.

(** X4. A warning is shown by [score_resume] exactly when the value it
    returns equals -1 under Python's [==], the test the display uses for
    N/A: a reply that parses never gives a value equal to -1, and a failure
    never gives a score.  Without a warning the result is between 0 and
    100. *)
Theorem score_resume_warns_iff_sentinel llm jd text n :
  existsb is_warning (snd (score_resume py_float llm jd text n))
  = is_sentinel (fst (score_resume py_float llm jd text n)) /\
  (is_sentinel (fst (score_resume py_float llm jd text n)) = false ->
   py_le (PyInt 0) (fst (score_resume py_float llm jd text n)) = true /\
   py_le (fst (score_resume py_float llm jd text n)) (PyInt 100) = true).
Proof.
  pose proof (score_resume_possible py_float llm jd text n) as P.
  assert (W : existsb is_warning (snd (score_resume py_float llm jd text n))
              = is_sentinel (fst (score_resume py_float llm jd text n))).
  { revert P. unfold score_resume, score_attempt, bind.
    destruct (llm _) as [reply|e]; [|reflexivity].
    destruct (py_float _) as [x|e]; [|reflexivity].
    cbn [fst snd existsb is_warning orb]. intros P.
    destruct (is_sentinel _) eqn:S; [|reflexivity].
    apply ScoreOrder.sentinel_is_minus_one in S; [|exact P].
    destruct (clamp_cases x) as [(_ & _ & E)|[(_ & _ & E)|(_ & E)]];
      rewrite E in S; discriminate. }
  split; [exact W|].
  intros S. destruct (possible_range _ P) as [E|R]; [|exact R].
  rewrite E in S. discriminate.
Qed.

End ScorerExtras.

(** * Further properties of the display *)

Section DisplayExtras.
Import ScoreOrder.

(** X5. The ranking is shown as one line per result, numbered from the
    starting rank in steps of one, in the order of the list.  For the
    scores a run can collect, a line shows N/A exactly when the score is
    the sentinel -1, and the stored score otherwise: a legitimate score of
    0 is shown as a score. *)
Theorem display_lines scores :
  Forall (fun e => possible_score (entry_score e) = true) scores ->
  forall i,
    List.length (display_loop i scores) = List.length scores /\
    forall k e, nth_error scores k = Some e ->
      exists shown_score,
        nth_error (display_loop i scores) k
        = Some (ranked_line (i + k) (entry_name e) shown_score) /\
        (shown_score = None <-> entry_score e = PyInt (-1)) /\
        (entry_score e <> PyInt (-1) -> shown_score = Some (entry_score e)).
Proof.
  induction 1 as [|s scores Ps _ IH]; intros i.
  - split; [reflexivity|]. intros [|k] e H; discriminate.
  - destruct (IH (S i)) as [IL IN]. split; [cbn; now rewrite IL|].
    intros [|k] e H; cbn in H.
    + injection H as <-. cbn [display_loop nth_error].
      rewrite Nat.add_0_r. eexists. split; [reflexivity|].
      fold (is_sentinel (entry_score s)).
      destruct (is_sentinel (entry_score s)) eqn:S.
      * apply sentinel_is_minus_one in S; [|exact Ps].
        split; [tauto|]. intros C. contradiction.
      * split; [|reflexivity].
        split; [discriminate|]. intros E. rewrite E in S. discriminate.
    + destruct (IN k e H) as (d & Hd & R). exists d.
      cbn [display_loop nth_error]. rewrite Hd.
      replace (i + S k) with (S i + k) by lia. auto.
Qed.

End DisplayExtras.

(** * Further properties of the two loops *)

Section LoopExtras.
Import DictFacts.

Variable fitz_open : list Byte.byte -> outcome (list fitz_page).

Local Abbreviation extract := (extract_text_from_pdf fitz_open).
Local Abbreviation extract_all := (extract_loop fitz_open).

Lemma extract_loop_cons f rest d :
  extract_all (f :: rest) d
  = (fst (extract_all rest (dict_set d (name f) (fst (extract f)))),
     snd (extract f)
     ++ (if String.eqb (strip (fst (extract f))) ""
         then [st_warning ("No text extracted from resume: " ++ name f)]
         else [])
     ++ snd (extract_all rest (dict_set d (name f) (fst (extract f))))).
Proof.
  cbn [extract_loop]. destruct (extract f) as [text ev]. cbn [fst snd].
  destruct (extract_all rest (dict_set d (name f) text)). reflexivity.
Qed.

Lemma extract_loop_reads files d :
  filter is_pdf_read (snd (extract_all files d))
  = map (fun f => pdf_read (name f)) files.
Proof.
  revert d. induction files as [|f files IH]; intros d; [reflexivity|].
  rewrite extract_loop_cons. cbn [snd map].
  rewrite !filter_app, IH.
  destruct (extract_events fitz_open f) as [-> | [e ->]];
    destruct (String.eqb _ _); reflexivity.
Qed.

(** X6. The extraction loop opens every uploaded file exactly once, in the
    order of the upload, whether or not earlier files could be read. *)
Theorem extraction_reads_every_file files d :
  filter is_pdf_read (snd (extract_all files d))
  = map (fun f => pdf_read (name f)) files.
Proof. apply extract_loop_reads. Qed.


Lemma dict_set_fresh d k v :
  ~ In k (dict_keys d) -> dict_set d k v = d ++ [(k, v)].
Proof.
  induction d as [|[k0 v0] d IH]; cbn; intros H; [reflexivity|].
  destruct (String.eqb_spec k0 k) as [->|N]; [tauto|].
  rewrite IH; [reflexivity|tauto].
Qed.

Lemma extract_loop_fresh files : forall d,
  NoDup (map name files) ->
  (forall f, In f files -> ~ In (name f) (dict_keys d)) ->
  fst (extract_all files d)
  = d ++ map (fun f => (name f, fst (extract f))) files.
Proof.
  induction files as [|f files IH]; intros d N F.
  - cbn. now rewrite app_nil_r.
  - rewrite extract_loop_cons. cbn [fst map].
    inversion N as [|? ? Nf Nr]; subst.
    rewrite IH; [|exact Nr|].
    + rewrite dict_set_fresh by (apply F; now left).
      now rewrite <- app_assoc.
    + intros g Hg I. apply keys_set_in in I. destruct I as [E|I].
      * apply Nf. rewrite <- E. now apply in_map.
      * apply (F g); [now right|exact I].
Qed.

(** X8. When no two uploaded files share a name, [resumes_texts] holds the
    files in the order of the upload, each name with the text extracted
    from that file, unstripped. *)
Theorem distinct_names_keep_upload_order files :
  NoDup (map name files) ->
  fst (extract_loop fitz_open files [])
  = map (fun f => (name f, fst (extract_text_from_pdf fitz_open f))) files.
Proof.
  intros N. apply (extract_loop_fresh files [] N). intros f _ [].
Qed.

Variable py_float : string -> outcome float.

Local Abbreviation scored llm jd :=
  (fun p : nat * (string * string) =>
     {| entry_name := fst (snd p);
        entry_score :=
          fst (score_resume py_float (llm (fst p)) jd (snd (snd p))
                 (fst (snd p))) |}).

Lemma score_loop_map llm jd items : forall idx total scores,
  fst (score_loop py_float llm jd items idx total scores)
  = scores
    ++ map (scored llm jd) (combine (seq idx (List.length items)) items).
Proof.
  induction items as [|[n t] items IH]; intros idx total scores.
  - cbn. now rewrite app_nil_r.
  - cbn [score_loop].
    destruct (score_resume py_float (llm idx) jd t n) as [score ev] eqn:E.
    specialize (IH (S idx) total
                  (scores ++ [{| entry_name := n; entry_score := score |}])).
    destruct (score_loop _ _ _ _ _ _ _) as [final ev']. cbn [fst] in *.
    rewrite IH, <- app_assoc. cbn. now rewrite E.
Qed.

(** X9. The scoring loop scores every item once, the i-th item with the
    i-th call of the run, and appends the results in the order of the
    items; a failed call does not stop it. *)
Theorem score_loop_results llm jd items idx total scores :
  fst (score_loop py_float llm jd items idx total scores)
  = scores
    ++ map (scored llm jd) (combine (seq idx (List.length items)) items).
Proof. apply score_loop_map. Qed.




End LoopExtras.

(** * Further properties of [main] *)

Section MainExtras.
Import DictFacts.

Variable py_float : string -> outcome float.
Variable fitz_open : list Byte.byte -> outcome (list fitz_page).
Variable decode_utf8 : list Byte.byte -> outcome string.
Variable getenv : string -> option string.
Variable AzureChatOpenAI : llm_settings -> nat -> list message -> outcome string.

Local Abbreviation run :=
  (main py_float fitz_open decode_utf8 getenv AzureChatOpenAI).
Local Abbreviation extract := (extract_text_from_pdf fitz_open).
Local Abbreviation extract_all := (extract_loop fitz_open).
Local Abbreviation llm := (configured_llm getenv AzureChatOpenAI).

(** The situation of a run, with the value of [main] in each. *)
Lemma main_situation jd files :
  ((jd = None \/ files = []) /\ fst (run jd files) = not_started) \/
  (jd <> None /\ 10 < List.length files /\
   fst (run jd files) = too_many_resumes) \/
  (exists j e, jd = Some j /\ files <> [] /\ List.length files <= 10 /\
     read_job_description decode_utf8 j = Raises e /\
     fst (run jd files) = job_description_unreadable) \/
  (exists j t, jd = Some j /\ files <> [] /\ List.length files <= 10 /\
     read_job_description decode_utf8 j = Returns t /\
     required_settings_present getenv = false /\
     fst (run jd files) = configuration_missing) \/
  (exists j t shown, jd = Some j /\ files <> [] /\ List.length files <= 10 /\
     read_job_description decode_utf8 j = Returns t /\
     required_settings_present getenv = true /\
     fst (run jd files) = ranked shown).
Proof.
  destruct (main_early py_float fitz_open decode_utf8 getenv AzureChatOpenAI
              jd files)
    as [[D E]|[(j & Hj & Hne & Hl & E)|[(j & e & Hj & Hne & Hl & R & E)
       |(j & t & Hj & Hne & Hl & R)]]].
  - left. rewrite E. auto.
  - right. left. rewrite E. subst jd. repeat split; [discriminate|exact Hl].
  - right. right. left. exists j, e. rewrite E. auto 6.
  - right. right. right. subst jd.
    rewrite (main_after_reading _ _ _ _ _ _ _ t Hne Hl R). cbn zeta.
    destruct (required_settings_present getenv) eqn:S.
    + right. exists j, t. eexists.
      split; [reflexivity|]. split; [exact Hne|]. split; [exact Hl|].
      split; [exact R|]. split; reflexivity.
    + left. exists j, t. auto 8.
Qed.

(** X11. Which way a run ends.  Nothing happens unless both a job
    description and at least one resume are uploaded; more than ten resumes
    are refused before the job description is read; an unreadable job
    description is reported before the settings are looked at; a ranking is
    produced exactly when there are one to ten resumes, the job description
    can be read and the three required settings are set and not empty (the
    API version is not required). *)
Theorem main_exit_table jd files :
  (fst (run jd files) = not_started <-> jd = None \/ files = []) /\
  (fst (run jd files) = too_many_resumes
   <-> jd <> None /\ 10 < List.length files) /\
  (fst (run jd files) = job_description_unreadable
   <-> exists j e, jd = Some j /\ files <> [] /\ List.length files <= 10 /\
         read_job_description decode_utf8 j = Raises e) /\
  (fst (run jd files) = configuration_missing
   <-> exists j t, jd = Some j /\ files <> [] /\ List.length files <= 10 /\
         read_job_description decode_utf8 j = Returns t /\
         required_settings_present getenv = false) /\
  ((exists shown, fst (run jd files) = ranked shown)
   <-> exists j t, jd = Some j /\ files <> [] /\ List.length files <= 10 /\
         read_job_description decode_utf8 j = Returns t /\
         required_settings_present getenv = true).
Proof.
  destruct (main_situation jd files)
    as [[D E]|[(Hj & Hl & E)|[(j & e & Hj & Hne & Hl & R & E)
       |[(j & t & Hj & Hne & Hl & R & S & E)
        |(j & t & shown & Hj & Hne & Hl & R & S & E)]]]];
    rewrite E; (split; [|split; [|split; [|split]]]); split; intros G;
    repeat match goal with
    | H : exists _, _ |- _ => destruct H
    | H : _ /\ _ |- _ => destruct H
    | H : _ \/ _ |- _ => destruct H
    end;
    subst; try discriminate; try congruence; try lia;
    try (cbn in *; lia); eauto 10.
Qed.





Lemma no_scoring_without_settings :
  required_settings_present getenv = false ->
  forall jd files,
    (forall shown, fst (run jd files) <> ranked shown) /\
    Forall (fun e => is_llm_call e = false) (snd (run jd files)).
Proof.
  intros S jd files.
  destruct (main_early py_float fitz_open decode_utf8 getenv AzureChatOpenAI
              jd files)
    as [[_ E]|[(j & _ & _ & _ & E)|[(j & e & _ & _ & _ & _ & E)
       |(j & t & -> & Hne & Hl & R)]]];
    try (rewrite E; cbn; split; [discriminate|repeat constructor]).
  rewrite (main_after_reading _ _ _ _ _ _ _ t Hne Hl R). cbn zeta.
  rewrite S. cbn [fst snd]. split; [discriminate|].
  apply Forall_app. split; [|repeat constructor].
  apply (extract_loop_trace fitz_open files []).
Qed.

(** X13. A required setting that is set to the empty string counts as
    missing: no ranking is produced and the model is not called, and a run
    that gets as far as the settings stops with the configuration error. *)
Theorem empty_setting_counts_as_missing :
  getenv "AZURE_OPENAI_API_KEY" = Some "" \/
  getenv "AZURE_OPENAI_ENDPOINT" = Some "" \/
  getenv "AZURE_OPENAI_DEPLOYMENT_NAME" = Some "" ->
  forall jd files,
    (forall shown, fst (run jd files) <> ranked shown) /\
    Forall (fun e => is_llm_call e = false) (snd (run jd files)) /\
    (forall j t,
       jd = Some j -> files <> [] -> List.length files <= 10 ->
       read_job_description decode_utf8 j = Returns t ->
       fst (run jd files) = configuration_missing).
Proof.
  intros H jd files.
  assert (S : required_settings_present getenv = false).
  { unfold required_settings_present. cbn [forallb].
    destruct H as [H|[H|H]]; rewrite H; cbn [truthy String.eqb negb andb];
      repeat (rewrite ?andb_false_r, ?andb_false_l); reflexivity. }
  destruct (no_scoring_without_settings S jd files) as [N Q].
  split; [exact N|split; [exact Q|]].
  intros j t -> Hne Hl R.
  rewrite (main_after_reading _ _ _ _ _ _ _ t Hne Hl R). cbn zeta.
  now rewrite S.
Qed.

Lemma combine_map_r {X Y Z} (g : Y -> Z) (l : list X) (l' : list Y) :
  combine l (map g l') = map (fun p => (fst p, g (snd p))) (combine l l').
Proof.
  revert l'. induction l as [|x l IH]; intros [|y l']; cbn; [reflexivity..|].
  now rewrite IH.
Qed.

(** X14. With pairwise distinct file names, a run that reaches scoring
    ranks exactly one result per uploaded file: the i-th file (counted from
    0) is scored by the i-th call to the configured model, on the text
    extracted from that file and against the decoded job description, and
    the results are then ordered by score. *)
Theorem distinct_names_pipeline j files t :
  files <> [] -> List.length files <= 10 ->
  read_job_description decode_utf8 j = Returns t ->
  required_settings_present getenv = true ->
  NoDup (map name files) ->
  fst (run (Some j) files)
  = ranked
      (sorted_by_score_desc
         (map (fun p =>
                 {| entry_name := name (snd p);
                    entry_score :=
                      fst (score_resume py_float (llm (fst p)) t
                             (fst (extract (snd p))) (name (snd p))) |})
              (combine (seq 0 (List.length files)) files))).
Proof.
  intros Hne Hl R S N.
  rewrite (main_after_reading _ _ _ _ _ _ _ t Hne Hl R). cbn zeta.
  rewrite S. cbn [fst]. f_equal. f_equal.
  rewrite score_loop_map. cbn [app].
  rewrite (extract_loop_fresh fitz_open files [] N) by (intros f _ []).
  cbn [app]. rewrite length_map, combine_map_r, map_map. reflexivity.
Qed.

End MainExtras.

(** * Files uploaded under a name already seen *)

Section ReuploadExtras.
Import DictFacts.

Variable fitz_open : list Byte.byte -> outcome (list fitz_page).

Local Abbreviation extract := (extract_text_from_pdf fitz_open).
Local Abbreviation extract_all := (extract_loop fitz_open).

Lemma extract_loop_app pre post : forall d,
  fst (extract_all (pre ++ post) d)
  = fst (extract_all post (fst (extract_all pre d))).
Proof.
  induction pre as [|f pre IH]; intros d; [reflexivity|].
  cbn [app]. rewrite !extract_loop_cons. cbn [fst]. apply IH.
Qed.

Lemma keys_set_present d k v :
  In k (dict_keys d) -> dict_keys (dict_set d k v) = dict_keys d.
Proof.
  induction d as [|[k0 v0] d IH]; cbn; [tauto|].
  destruct (String.eqb_spec k0 k) as [->|N]; [reflexivity|].
  intros [E|I]; [contradiction|]. cbn. f_equal. now apply IH.
Qed.

(** X15. A file uploaded under a name that an earlier file already used
    does not add an entry: the order of the names in [resumes_texts] stays
    as it was, the text stored under that name becomes the text of the
    later file, and the texts under the other names are untouched. *)
Theorem reupload_replaces_text_in_place pre f d :
  In (name f) (dict_keys (fst (extract_all pre d))) ->
  dict_keys (fst (extract_all (pre ++ [f]) d))
  = dict_keys (fst (extract_all pre d)) /\
  dict_get (fst (extract_all (pre ++ [f]) d)) (name f)
  = Some (fst (extract f)) /\
  forall k, k <> name f ->
    dict_get (fst (extract_all (pre ++ [f]) d)) k
    = dict_get (fst (extract_all pre d)) k.
Proof.
  intros I. rewrite extract_loop_app, extract_loop_cons. cbn [fst extract_loop].
  split; [now apply keys_set_present|].
  split; [apply get_set_same|].
  intros k N. now apply get_set_other.
Qed.

End ReuploadExtras.

(** * The first rank *)

Section FirstRankExtras.
Import FloatOrder ScoreOrder.

Lemma SFleb_of_not_ltb x y :
  is_nan_sf x = false -> is_nan_sf y = false ->
  SFltb x y = false -> SFleb y x = true.
Proof. unfold SFltb, SFleb. sf_split x; sf_split y; sf_finish. Qed.

Lemma possible_le_float a b :
  possible_score a = true -> possible_score b = true ->
  py_le a b = PrimFloat.leb (as_float a) (as_float b).
Proof.
  destruct a as [i|x], b as [j|y]; try reflexivity.
  cbn [possible_score]. intros Hi Hj.
  split_int i Hi; split_int j Hj; vm_compute; reflexivity.
Qed.

Lemma py_le_of_not_lt a b :
  possible_score a = true -> possible_score b = true ->
  py_lt a b = false -> py_le b a = true.
Proof.
  intros Ha Hb. rewrite possible_lt_float, possible_le_float by assumption.
  rewrite ltb_spec, leb_spec.
  apply SFleb_of_not_ltb; now apply possible_not_nan.
Qed.

(** X16. The resume ranked first has the highest score: every collected
    score is at most the score shown first.  In particular a failed resume
    (N/A) is ranked first only when every resume failed. *)
Theorem first_rank_is_best scores top rest :
  Forall (fun e => possible_score (entry_score e) = true) scores ->
  sorted_by_score_desc scores = top :: rest ->
  (forall e, In e scores ->
     py_le (entry_score e) (entry_score top) = true) /\
  (entry_score top = PyInt (-1) ->
   forall e, In e scores -> entry_score e = PyInt (-1)).
Proof.
  intros P E.
  assert (Pm : Permutation (top :: rest) scores).
  { rewrite <- E. apply sorted_reverse_perm. }
  assert (D : descending score_lt (top :: rest)).
  { rewrite <- E.
    apply (sorted_reverse_descending score_lt
             (fun e => possible_score (entry_score e) = true)); [| |exact P].
    - intros a b. unfold score_lt. apply py_lt_asym.
    - intros a b c. unfold score_lt. apply py_lt_cotrans. }
  assert (P' : Forall (fun e => possible_score (entry_score e) = true)
                 (top :: rest)).
  { apply (forall_perm _ scores); [now symmetry|exact P]. }
  apply StronglySorted_inv in D. destruct D as [_ D].
  inversion P' as [|? ? Pt Pr]; subst.
  assert (L : forall e, In e scores ->
                possible_score (entry_score e) = true /\
                py_lt (entry_score top) (entry_score e) = false).
  { intros e He. apply (Permutation_in _ (Permutation_sym Pm)) in He.
    destruct He as [<-|He].
    - split; [exact Pt|now apply py_lt_irrefl].
    - rewrite Forall_forall in D, Pr. split; [now apply Pr|now apply D]. }
  split.
  - intros e He. destruct (L e He) as [Pe Le]. now apply py_le_of_not_lt.
  - intros T e He. destruct (L e He) as [Pe Le]. rewrite T in Le.
    apply sentinel_is_minus_one; [exact Pe|].
    destruct (is_sentinel (entry_score e)) eqn:S; [reflexivity|].
    destruct (sentinel_least _ Pe) as [_ C]. rewrite (C S) in Le. discriminate.
Qed.

End FirstRankExtras.

(** * Which text is scored under a name *)

Section ScoredText.
Import DictFacts.

Variable py_float : string -> outcome float.
Variable fitz_open : list Byte.byte -> outcome (list fitz_page).
Variable decode_utf8 : list Byte.byte -> outcome string.
Variable getenv : string -> option string.
Variable AzureChatOpenAI : llm_settings -> nat -> list message -> outcome string.

Local Abbreviation run :=
  (main py_float fitz_open decode_utf8 getenv AzureChatOpenAI).
Local Abbreviation extract := (extract_text_from_pdf fitz_open).
Local Abbreviation extract_all := (extract_loop fitz_open).
Local Abbreviation llm := (configured_llm getenv AzureChatOpenAI).

Lemma in_combine_seq {X} (l : list X) x :
  In x l -> forall k, exists i, In (i, x) (combine (seq k (List.length l)) l).
Proof.
  induction l as [|y l IH]; intros H k; [destruct H|].
  destruct H as [->|H].
  - exists k. now left.
  - destruct (IH H (S k)) as [i Hi]. exists i. now right.
Qed.

(** With a readable job description, at most ten resumes and the settings
    present, the run ends with a ranking, and a file that no later upload
    shares its name with is scored on its own text: the model is called
    with that text under the file's name, and the ranking holds the result
    of such a call under that name. *)
Lemma last_file_scored j t pre f post :
  read_job_description decode_utf8 j = Returns t ->
  required_settings_present getenv = true ->
  List.length (pre ++ f :: post) <= 10 ->
  (forall g, In g post -> name g <> name f) ->
  exists shown i,
    fst (run (Some j) (pre ++ f :: post)) = ranked shown /\
    In (llm_call (messages_for t (fst (extract f)) (name f)))
       (snd (run (Some j) (pre ++ f :: post))) /\
    In {| entry_name := name f;
          entry_score :=
            fst (score_resume py_float (llm i) t (fst (extract f)) (name f)) |}
       shown.
Proof.
  intros R S Hl L.
  assert (Hne : pre ++ f :: post <> []) by (destruct pre; discriminate).
  rewrite (main_after_reading _ _ _ _ _ _ _ t Hne Hl R). cbn zeta.
  rewrite S. cbn [fst snd].
  set (d := fst (extract_all (pre ++ f :: post) [])).
  assert (I : In (name f, fst (extract f)) d).
  { apply get_in. now apply extract_loop_get. }
  destruct (in_combine_seq d _ I 0) as [i Hi].
  eexists. exists i. split; [reflexivity|]. split.
  - apply in_or_app. right. apply in_or_app. left.
    now apply score_loop_trace.
  - apply (Permutation_in _ (Permutation_sym (sorted_reverse_perm score_lt _))).
    rewrite score_loop_map. cbn [app].
    apply (in_map
             (fun p : nat * (string * string) =>
                {| entry_name := fst (snd p);
                   entry_score :=
                     fst (score_resume py_float (llm (fst p)) t (snd (snd p))
                            (fst (snd p))) |})
             _ _ Hi).
Qed.

(** C7 (as amended). Extraction always returns.  For a well-formed PDF it
    returns the texts of the pages joined in document order and shows
    nothing; for any other stream (the read fails, the document cannot be
    opened, or a page fails) it returns the empty string and shows an
    error.  Every stream is of one kind or the other.  In a run that
    reaches scoring (one to ten resumes, a readable job description, the
    required settings present), scoring then proceeds with the empty text
    for a file that could not be extracted, provided no later upload has
    the same file name: the model is called with the empty text under the
    file's name and the ranking holds the result of such a call. *)
Theorem extract_text_total :
  (forall file texts,
     well_formed_pdf fitz_open file texts ->
     extract file = (String.concat "" texts, [pdf_read (name file)])) /\
  (forall file,
     (forall texts, ~ well_formed_pdf fitz_open file texts) ->
     exists e,
       extract file =
         ("", [pdf_read (name file);
               st_error ("Error reading PDF file: " ++ e)])) /\
  (forall file,
     (exists texts, well_formed_pdf fitz_open file texts) \/
     (forall texts, ~ well_formed_pdf fitz_open file texts)) /\
  (forall j t pre f post,
     read_job_description decode_utf8 j = Returns t ->
     required_settings_present getenv = true ->
     List.length (pre ++ f :: post) <= 10 ->
     (forall g, In g post -> name g <> name f) ->
     (forall texts, ~ well_formed_pdf fitz_open f texts) ->
     exists shown i,
       fst (run (Some j) (pre ++ f :: post)) = ranked shown /\
       In (llm_call (messages_for t "" (name f)))
          (snd (run (Some j) (pre ++ f :: post))) /\
       In {| entry_name := name f;
             entry_score :=
               fst (score_resume py_float (llm i) t "" (name f)) |}
          shown).
Proof.
  split; [|split; [|split]].
  - apply extract_well_formed.
  - apply extract_malformed.
  - intros file. unfold well_formed_pdf.
    destruct (read file) as [data|e] eqn:R.
    2:{ right. intros texts (d & doc & C & _). discriminate. }
    destruct (fitz_open data) as [doc|e] eqn:O.
    2:{ right. intros texts (d & doc & C & O' & _).
        injection C as <-. congruence. }
    destruct (page_loop_total doc "") as [[texts T]|[e P]].
    + left. exists texts, data, doc. auto.
    + right. intros texts (d & doc' & C & O' & T).
      injection C as <-. rewrite O in O'. injection O' as <-.
      rewrite (page_loop_texts doc texts "" T) in P. discriminate.
  - intros j t pre f post R S Hl L M.
    destruct (last_file_scored j t pre f post R S Hl L)
      as (shown & i & E & C & I).
    destruct (extract_malformed fitz_open f M) as [e X].
    rewrite X in C, I. cbn [fst] in C, I.
    exists shown, i. auto.
Qed.

(** C8 (as amended). With a readable job description and one to ten
    resumes, a resume whose extracted text is empty or only white space
    gets the no-text warning.  If moreover the required settings are
    present and no later upload has the same file name, the resume is not
    skipped: the run ends with a ranking, the model is called with this
    file's own text under its name, and the ranking holds under that name
    the result of such a call, which is the sentinel -1 or lies between 0
    and 100. *)
Theorem blank_resume_still_scored :
  (forall j t files f,
     read_job_description decode_utf8 j = Returns t ->
     List.length files <= 10 ->
     In f files ->
     strip (fst (extract f)) = "" ->
     In (st_warning ("No text extracted from resume: " ++ name f))
        (snd (run (Some j) files))) /\
  (forall j t pre f post,
     read_job_description decode_utf8 j = Returns t ->
     required_settings_present getenv = true ->
     List.length (pre ++ f :: post) <= 10 ->
     (forall g, In g post -> name g <> name f) ->
     strip (fst (extract f)) = "" ->
     exists shown i,
       fst (run (Some j) (pre ++ f :: post)) = ranked shown /\
       In (llm_call (messages_for t (fst (extract f)) (name f)))
          (snd (run (Some j) (pre ++ f :: post))) /\
       In {| entry_name := name f;
             entry_score :=
               fst (score_resume py_float (llm i) t (fst (extract f))
                      (name f)) |}
          shown /\
       (fst (score_resume py_float (llm i) t (fst (extract f)) (name f))
        = PyInt (-1) \/
        (py_le (PyInt 0)
           (fst (score_resume py_float (llm i) t (fst (extract f)) (name f)))
         = true /\
         py_le
           (fst (score_resume py_float (llm i) t (fst (extract f)) (name f)))
           (PyInt 100)
         = true))).
Proof.
  split.
  - intros j t files f R Hl If B.
    assert (Hne : files <> []) by (intros ->; destruct If).
    rewrite (main_after_reading _ _ _ _ _ _ _ t Hne Hl R). cbn zeta.
    destruct (extract_loop_trace fitz_open files []) as (_ & _ & W).
    cbn zeta in W.
    destruct (required_settings_present getenv); cbn [snd];
      apply in_or_app; left; now apply W.
  - intros j t pre f post R S Hl L _.
    destruct (last_file_scored j t pre f post R S Hl L)
      as (shown & i & E & C & I).
    exists shown, i. split; [exact E|split; [exact C|split; [exact I|]]].
    apply possible_range, score_resume_possible.
Qed.

End ScoredText.

(** * The further properties at concrete inputs *)

Lemma sorted_keeps_descending_input_witness :
  Forall (fun e => possible_score (entry_score e) = true) abcd /\
  sorted_by_score_desc (sorted_by_score_desc abcd) = sorted_by_score_desc abcd.
Proof.
  assert (D : Forall (fun e => possible_score (entry_score e) = true) abcd)
    by repeat constructor.
  split; [exact D|].
  apply (proj2 sorted_keeps_descending_input abcd D).
Defined.

Lemma nan_reply_scores_100_witness :
  is_nan PrimFloat.nan = true /\
  score_resume (fun _ => Returns PrimFloat.nan) (fun _ => Returns "nan")
    "job" "text" "a.pdf"
  = (PyInt 100, [llm_call (messages_for "job" "text" "a.pdf")]).
Proof.
  assert (N : is_nan PrimFloat.nan = true) by (vm_compute; reflexivity).
  split; [exact N|].
  apply (nan_reply_scores_100 (fun _ => Returns PrimFloat.nan)
           (fun _ => Returns "nan") "job" "text" "a.pdf" "nan" PrimFloat.nan
           eq_refl eq_refl N).
Defined.

Lemma score_resume_monotone_witness :
  PrimFloat.leb 73.5 150 = true /\
  py_le (fst (score_resume sample_float (fun _ => Returns "73.5")
                "job" "text" "a.pdf"))
        (fst (score_resume sample_float (fun _ => Returns "150")
                "job" "text" "b.pdf")) = true.
Proof.
  split; [vm_compute; reflexivity|].
  apply (score_resume_monotone sample_float
           (fun _ => Returns "73.5") (fun _ => Returns "150")
           "job" "job" "text" "text" "a.pdf" "b.pdf" "73.5" "150"
           73.5%float 150%float);
    vm_compute; reflexivity.
Defined.

Lemma display_lines_witness :
  Forall (fun e => possible_score (entry_score e) = true) abcd /\
  List.length (display_loop 1 abcd) = List.length abcd.
Proof.
  assert (D : Forall (fun e => possible_score (entry_score e) = true) abcd)
    by repeat constructor.
  split; [exact D|].
  apply (proj1 (display_lines abcd D 1)).
Defined.


Lemma distinct_names_keep_upload_order_witness :
  NoDup (map name [cv_blank; cv_a; cv_broken]) /\
  fst (extract_loop sample_fitz_open [cv_blank; cv_a; cv_broken] [])
  = [("blank.pdf", ""); ("a.pdf", "Python"); ("broken.pdf", "")].
Proof.
  assert (N : NoDup (map name [cv_blank; cv_a; cv_broken])).
  { repeat constructor; cbn; intuition discriminate. }
  split; [exact N|].
  rewrite (distinct_names_keep_upload_order sample_fitz_open _ N).
  vm_compute. reflexivity.
Defined.


Lemma empty_setting_witness :
  sample_getenv_empty_key "AZURE_OPENAI_API_KEY" = Some "" /\
  fst (main sample_float sample_fitz_open sample_decode
         sample_getenv_empty_key sample_llm (Some sample_jd) [cv_a])
  = configuration_missing.
Proof.
  split; [reflexivity|].
  apply (proj2 (proj2 (empty_setting_counts_as_missing sample_float
           sample_fitz_open sample_decode sample_getenv_empty_key sample_llm
           (or_introl eq_refl) (Some sample_jd) [cv_a]))
           sample_jd "Looking for a Python backend engineer");
    [reflexivity|discriminate|cbn; lia|vm_compute; reflexivity].
Defined.

Lemma distinct_names_pipeline_witness :
  NoDup (map name [cv_blank; cv_a; cv_broken]) /\
  fst (sample_run (Some sample_jd) [cv_blank; cv_a; cv_broken])
  = ranked
      [ {| entry_name := "blank.pdf"; entry_score := PyFloat 73.5 |};
        {| entry_name := "a.pdf"; entry_score := PyInt (-1) |};
        {| entry_name := "broken.pdf"; entry_score := PyInt (-1) |} ].
Proof.
  assert (N : NoDup (map name [cv_blank; cv_a; cv_broken])).
  { repeat constructor; cbn; intuition discriminate. }
  split; [exact N|].
  rewrite (distinct_names_pipeline sample_float sample_fitz_open sample_decode
             sample_getenv sample_llm sample_jd [cv_blank; cv_a; cv_broken]
             "Looking for a Python backend engineer");
    [vm_compute; reflexivity|discriminate|cbn; lia|vm_compute; reflexivity
    |reflexivity|exact N].
Defined.

Lemma reupload_witness :
  In (name cv_a_again)
     (dict_keys (fst (extract_loop sample_fitz_open [cv_a; cv_blank] []))) /\
  dict_keys (fst (extract_loop sample_fitz_open
                    ([cv_a; cv_blank] ++ [cv_a_again]) []))
  = ["a.pdf"; "blank.pdf"] /\
  dict_get (fst (extract_loop sample_fitz_open
                   ([cv_a; cv_blank] ++ [cv_a_again]) [])) "a.pdf"
  = Some "Rust".
Proof.
  assert (I : In (name cv_a_again)
                (dict_keys (fst (extract_loop sample_fitz_open
                                   [cv_a; cv_blank] [])))).
  { left. reflexivity. }
  split; [exact I|].
  destruct (reupload_replaces_text_in_place sample_fitz_open
              [cv_a; cv_blank] cv_a_again [] I) as (K & G & _).
  split; [rewrite K; reflexivity|exact G].
Defined.

Lemma first_rank_is_best_witness :
  py_le (PyFloat 80) (PyFloat 95) = true.
Proof.
  refine (proj1
    (first_rank_is_best abcd
       {| entry_name := "C"; entry_score := PyFloat 95 |}
       [ {| entry_name := "A"; entry_score := PyFloat 80 |};
         {| entry_name := "D"; entry_score := PyFloat 80 |};
         {| entry_name := "B"; entry_score := PyInt (-1) |} ] _ _)
    {| entry_name := "A"; entry_score := PyFloat 80 |} _).
  - repeat constructor.
  - vm_compute. reflexivity.
  - left. reflexivity.
Defined.

(** * The amended statements at concrete inputs *)

(** C7, the claim as stated fails: a stream that is not a PDF, uploaded as
    a.pdf and followed by a readable a.pdf, is extracted to the empty
    string with an error, but scoring does not proceed with the empty text:
    the only call to the model carries the text of the second file. *)
Lemma broken_file_text_replaced :
  extract_text_from_pdf sample_fitz_open cv_a_broken
  = ("", [pdf_read "a.pdf";
          st_error "Error reading PDF file: Failed to open stream"]) /\
  sample_run (Some sample_jd) [cv_a_broken; cv_a_again]
  = (ranked [{| entry_name := "a.pdf"; entry_score := PyFloat 73.5 |}],
     [pdf_read "a.pdf";
      st_error "Error reading PDF file: Failed to open stream";
      st_warning "No text extracted from resume: a.pdf";
      pdf_read "a.pdf";
      llm_call (messages_for "Looking for a Python backend engineer"
                  "Rust" "a.pdf");
      st_progress 1 1;
      ranked_line 1 "a.pdf" (Some (PyFloat 73.5))]).
Proof. split; vm_compute; reflexivity. Qed.

Lemma extract_text_total_witness :
  well_formed_pdf sample_fitz_open cv_a ["P"; "y"; "t"; "h"; "o"; "n"] /\
  extract_text_from_pdf sample_fitz_open cv_a = ("Python", [pdf_read "a.pdf"]) /\
  (exists e,
     extract_text_from_pdf sample_fitz_open cv_broken
     = ("", [pdf_read "broken.pdf";
             st_error ("Error reading PDF file: " ++ e)])) /\
  exists shown i,
    fst (sample_run (Some sample_jd) ([cv_a] ++ cv_broken :: [cv_blank]))
    = ranked shown /\
    In (llm_call (messages_for "Looking for a Python backend engineer"
                    "" "broken.pdf"))
       (snd (sample_run (Some sample_jd) ([cv_a] ++ cv_broken :: [cv_blank]))) /\
    In {| entry_name := "broken.pdf";
          entry_score :=
            fst (score_resume sample_float
                   (configured_llm sample_getenv sample_llm i)
                   "Looking for a Python backend engineer" "" "broken.pdf") |}
       shown.
Proof.
  assert (W : well_formed_pdf sample_fitz_open cv_a
                ["P"; "y"; "t"; "h"; "o"; "n"]).
  { eexists. eexists. split; [reflexivity|]. split; vm_compute; reflexivity. }
  assert (M : forall texts, ~ well_formed_pdf sample_fitz_open cv_broken texts).
  { intros texts (data & doc & R & O & _).
    injection R as <-. vm_compute in O. discriminate O. }
  split; [exact W|split; [|split]].
  - apply (proj1 (extract_text_total sample_float sample_fitz_open
                    sample_decode sample_getenv sample_llm) cv_a _ W).
  - apply (proj1 (proj2 (extract_text_total sample_float sample_fitz_open
                           sample_decode sample_getenv sample_llm))
             cv_broken M).
  - apply (proj2 (proj2 (proj2 (extract_text_total sample_float
             sample_fitz_open sample_decode sample_getenv sample_llm)))
             sample_jd "Looking for a Python backend engineer"
             [cv_a] cv_broken [cv_blank]);
      [vm_compute; reflexivity|reflexivity|cbn; lia| |exact M].
    intros g [<-|[]]. discriminate.
Defined.

(** C8, the claim as stated fails: a PDF without text, uploaded as a.pdf
    and followed by another a.pdf, gets the warning but no scoring attempt:
    the only call to the model carries the text of the second file, and the
    only result is that file's. *)
Lemma blank_file_replaced_by_same_name :
  strip (fst (extract_text_from_pdf sample_fitz_open cv_a_blank)) = "" /\
  sample_run (Some sample_jd) [cv_a_blank; cv_a_again]
  = (ranked [{| entry_name := "a.pdf"; entry_score := PyFloat 73.5 |}],
     [pdf_read "a.pdf";
      st_warning "No text extracted from resume: a.pdf";
      pdf_read "a.pdf";
      llm_call (messages_for "Looking for a Python backend engineer"
                  "Rust" "a.pdf");
      st_progress 1 1;
      ranked_line 1 "a.pdf" (Some (PyFloat 73.5))]).
Proof. split; vm_compute; reflexivity. Qed.

(** The end-to-end example: the job description of the example and one
    resume whose text is empty. *)
Lemma blank_resume_still_scored_witness :
  strip (fst (extract_text_from_pdf sample_fitz_open cv_blank)) = "" /\
  In (st_warning "No text extracted from resume: blank.pdf")
     (snd (sample_run (Some sample_jd) [cv_blank])) /\
  exists shown i,
    fst (sample_run (Some sample_jd) ([] ++ cv_blank :: [])) = ranked shown /\
    In (llm_call (messages_for "Looking for a Python backend engineer"
                    "" "blank.pdf"))
       (snd (sample_run (Some sample_jd) ([] ++ cv_blank :: []))) /\
    In {| entry_name := "blank.pdf";
          entry_score :=
            fst (score_resume sample_float
                   (configured_llm sample_getenv sample_llm i)
                   "Looking for a Python backend engineer" "" "blank.pdf") |}
       shown.
Proof.
  assert (B : strip (fst (extract_text_from_pdf sample_fitz_open cv_blank)) = "")
    by reflexivity.
  split; [exact B|split].
  - apply (proj1 (blank_resume_still_scored sample_float sample_fitz_open
                    sample_decode sample_getenv sample_llm)
             sample_jd "Looking for a Python backend engineer" [cv_blank]
             cv_blank);
      [vm_compute; reflexivity|cbn; lia|now left|exact B].
  - destruct (proj2 (blank_resume_still_scored sample_float sample_fitz_open
                       sample_decode sample_getenv sample_llm)
                sample_jd "Looking for a Python backend engineer" []
                cv_blank [])
      as (shown & i & E & C & I & _);
      [vm_compute; reflexivity|reflexivity|cbn; lia|intros g []|exact B|].
    exists shown, i. split; [exact E|split; [exact C|exact I]].
Defined.
